(** * OpenSec agents: policy-gated action execution

    A shallow embedding of the agents of the repository
    ([openclaw.py], [sql_guardian.py], [validator.py], [data_cleaner.py])
    and the properties of the gate between "propose", "validate" and
    "execute", together with the scraper ([webspider.py]), which hands a
    page to the model behind the same gateway.

    Python text is modelled as [string]; a character of the model is a code
    point below 256, classified the way Python classifies it.  Everything
    outside the process (the HTTP endpoints, the file system, the SQLite
    store, the clock and the random module) is a [World]: a run of an agent
    is a function of the world it runs in, and records every call it makes to
    it, with the call's outcome, in a trace.

    Console output leaves no mark in the model.  A message built from a
    value of the run is a [print] of that value: the expression is
    evaluated where it can raise, and the call returns, the console being
    one that encodes every text of the model.  A text such a console
    refuses (a lone surrogate, which a JSON reply can carry) is outside
    the characters of the model, so where an agent prints text it was sent
    outside any [try] ([openclaw.py] 25 and 75, [sql_guardian.py] 120,
    [data_cleaner.py] 117), what is said of a run that returns is said of
    the runs in which those messages are written. *)

From Stdlib Require Import String Ascii List ZArith NArith Lia Bool.
From Stdlib Require Import DecimalString.
Import ListNotations.
Open Scope string_scope.

(* ================================================================== *)
(** ** Python values, text and exceptions *)
(* ================================================================== *)

Module Py.

(** *** Characters *)

Definition ord (c : ascii) : N := N_of_ascii c.

Definition between (lo hi n : N) : bool := (N.leb lo n && N.leb n hi)%bool.

(** [str.isspace] on the code points below 256:
    9-13, 28-31, 32, 133 and 160. *)
Definition is_space (c : ascii) : bool :=
  let n := ord c in
  (between 9 13 n || between 28 32 n || N.eqb n 133 || N.eqb n 160)%bool.

(** The class [\w] of [re] on [str] patterns, below 256: alphanumeric
    characters (in the Unicode sense) and the underscore. *)
Definition is_word (c : ascii) : bool :=
  let n := ord c in
  (between 48 57 n || between 65 90 n || N.eqb n 95 || between 97 122 n
   || N.eqb n 170 || between 178 179 n || N.eqb n 181 || between 185 186 n
   || between 188 190 n || between 192 214 n || between 216 246 n
   || between 248 255 n)%bool.

(** Line boundaries of [str.splitlines] below 256 (["\r\n"] counts once). *)
Definition is_linebreak (c : ascii) : bool :=
  let n := ord c in
  (between 10 13 n || between 28 30 n || N.eqb n 133)%bool.

Definition chr (n : N) : ascii := ascii_of_N n.

Definition nl : string := String (chr 10) "".
Definition dq : string := String (chr 34) "".

(** [str.upper] on one character that keeps its place.  The code points
    181 and 255, whose upper case lies beyond code point 255 (U+039C and
    U+0178), are left as they are. *)
Definition upper_char (c : ascii) : ascii :=
  let n := ord c in
  if (between 97 122 n || between 224 246 n || between 248 254 n)%bool
  then chr (n - 32) else c.

(** The upper case of a character: two letters for the sharp s (223). *)
Definition upper_one (c : ascii) : string :=
  if N.eqb (ord c) 223 then "SS" else String (upper_char c) "".

(** *** Text *)

Fixpoint upper (s : string) : string :=
  match s with
  | EmptyString => EmptyString
  | String c s' => upper_one c ++ upper s'
  end.

Definition is_empty (s : string) : bool :=
  match s with EmptyString => true | _ => false end.

Fixpoint lstrip (s : string) : string :=
  match s with
  | EmptyString => EmptyString
  | String c s' => if is_space c then lstrip s' else s
  end.

Fixpoint rstrip (s : string) : string :=
  match s with
  | EmptyString => EmptyString
  | String c s' =>
      let r := rstrip s' in
      if (is_empty r && is_space c)%bool then EmptyString else String c r
  end.

(** [s.strip()] *)
Definition strip (s : string) : string := rstrip (lstrip s).

(** [s.split()]: the maximal runs of non-whitespace characters, in order.
    [cur] is the run being read. *)
Fixpoint split_from (s cur : string) : list string :=
  match s with
  | EmptyString => if is_empty cur then [] else [cur]
  | String c s' =>
      if is_space c
      then (if is_empty cur then split_from s' "" else cur :: split_from s' "")
      else split_from s' (cur ++ String c "")
  end.

Definition split (s : string) : list string := split_from s "".

(** [needle in hay] *)
Fixpoint contains (needle hay : string) : bool :=
  (prefix needle hay ||
   match hay with
   | EmptyString => false
   | String _ hay' => contains needle hay'
   end)%bool.

(** [s.replace(old, new)] for a non-empty [old]: occurrences are replaced
    from the left and do not overlap; [skip] counts the characters of the
    occurrence just replaced that are still to be dropped. *)
Fixpoint replace_from (old new s : string) (skip : nat) : string :=
  match s with
  | EmptyString => EmptyString
  | String c s' =>
      match skip with
      | S k => replace_from old new s' k
      | O =>
          if prefix old s
          then new ++ replace_from old new s' (String.length old - 1)
          else String c (replace_from old new s' 0)
      end
  end.

Definition replace (old new s : string) : string := replace_from old new s 0.

(** [s[:n]] *)
Definition slice_to (n : nat) (s : string) : string := substring 0 n s.

(** [len(s.splitlines())]: a line ends at a line boundary or at the end of
    the text; a boundary at the very end opens no further line. *)
Fixpoint count_lines_from (s : string) (open : bool) (after_cr : bool) : nat :=
  match s with
  | EmptyString => if open then 1 else 0
  | String c s' =>
      if (after_cr && N.eqb (ord c) 10 && negb open)%bool
      then count_lines_from s' false false
      else if is_linebreak c
      then S (count_lines_from s' false (N.eqb (ord c) 13))
      else count_lines_from s' true false
  end.

Definition count_lines (s : string) : nat := count_lines_from s false false.

(** [str(n)] for integers *)
Definition str_of_nat (n : nat) : string :=
  NilZero.string_of_uint (Nat.to_uint n).

Definition str_of_Z (z : Z) : string :=
  NilZero.string_of_int (Z.to_int z).

(** [join_lines] glues the lines of a multi-line literal with ["\n"]. *)
Fixpoint join_lines (ls : list string) : string :=
  match ls with
  | [] => ""
  | [l] => l
  | l :: rest => l ++ nl ++ join_lines rest
  end.

(** *** Exceptions *)

Inductive ExnClass :=
| ConnectionError | Timeout | JSONDecodeError
| ValueError | TypeError | KeyError | IndexError | AttributeError
| OSError | FileNotFoundError | PermissionError | UnicodeDecodeError
| DatabaseError.

(** An exception object; [exn_msg] is what [str(e)] gives.  All the
    classes above derive from [Exception]. *)
Record Exn := mkExn { exn_class : ExnClass; exn_msg : string }.

Inductive Res (A : Type) :=
| Ret (a : A)
| Raise (e : Exn).
Arguments Ret {A} a.
Arguments Raise {A} e.

(** *** Values decoded from JSON *)

#[warnings="-register-all"]
Inductive PyVal :=
| PNone
| PBool (b : bool)
| PInt (z : Z)
| PFloat (repr : string)
| PStr (s : string)
| PList (items : list PyVal)
| PDict (entries : list (string * PyVal)).

Fixpoint lookup (key : string) (entries : list (string * PyVal)) : option PyVal :=
  match entries with
  | [] => None
  | (k, v) :: rest => if String.eqb k key then Some v else lookup key rest
  end.

Definition type_name (v : PyVal) : string :=
  match v with
  | PNone => "NoneType" | PBool _ => "bool" | PInt _ => "int"
  | PFloat _ => "float" | PStr _ => "str" | PList _ => "list"
  | PDict _ => "dict"
  end.

Definition no_attribute (v : PyVal) (attr : string) : Exn :=
  mkExn AttributeError
        ("'" ++ type_name v ++ "' object has no attribute '" ++ attr ++ "'").

(** [v.get(key, default)] *)
Definition get (v : PyVal) (key : string) (default : PyVal) : Res PyVal :=
  match v with
  | PDict entries =>
      match lookup key entries with
      | Some x => Ret x
      | None => Ret default
      end
  | _ => Raise (no_attribute v "get")
  end.

(** [v[0]]; the keys of a decoded JSON object are strings, so [0] is never
    one of them. *)
Definition item0 (v : PyVal) : Res PyVal :=
  match v with
  | PList (x :: _) => Ret x
  | PList [] => Raise (mkExn IndexError "list index out of range")
  | PStr (String c _) => Ret (PStr (String c ""))
  | PStr EmptyString => Raise (mkExn IndexError "string index out of range")
  | PDict _ => Raise (mkExn KeyError "0")
  | _ => Raise (mkExn TypeError
                  ("'" ++ type_name v ++ "' object is not subscriptable"))
  end.

(** [v[key]] for a string key *)
Definition item (v : PyVal) (key : string) : Res PyVal :=
  match v with
  | PDict entries =>
      match lookup key entries with
      | Some x => Ret x
      | None => Raise (mkExn KeyError ("'" ++ key ++ "'"))
      end
  | PList _ => Raise (mkExn TypeError
                        "list indices must be integers or slices, not str")
  | PStr _ => Raise (mkExn TypeError
                       "string indices must be integers, not 'str'")
  | _ => Raise (mkExn TypeError
                  ("'" ++ type_name v ++ "' object is not subscriptable"))
  end.

(** [v.strip()] *)
Definition strip_val (v : PyVal) : Res string :=
  match v with
  | PStr s => Ret (strip s)
  | _ => Raise (no_attribute v "strip")
  end.

End Py.

(* ================================================================== *)
(** ** The world outside the process, and runs that record their calls *)
(* ================================================================== *)

Module Effects.
Import Py.

(** What [requests.post] hands back when it returns: the status code, the
    raw body ([response.text]) and what [response.json()] gives, a decoded
    value or the decoding exception. *)
Record Response := mkResponse {
  status_code : Z;
  text : string;
  json : Res PyVal
}.

(** A value in a row fetched through [sqlite3]: [None], [int], [float]
    (carried as the text [repr] gives), [str] or [bytes]. *)
Inductive SqlValue :=
| SqlNull
| SqlInt (z : Z)
| SqlReal (repr : string)
| SqlText (s : string)
| SqlBlob (b : list ascii).

(** After [cursor.execute]: the column names of [cursor.description]
    ([None] for a statement that yields no rows) and what [fetchall]
    returns. *)
Record Cursor := mkCursor {
  description : option (list string);
  rows : list (list SqlValue)
}.

(** One call of [execute_query] against the store: [sqlite3.connect]
    raises (before the [try]), or [execute]/[fetchall] raise (inside it),
    or the rows arrive. *)
Inductive DbOutcome :=
| ConnectFails (e : Exn)
| ExecuteFails (e : Exn)
| Fetched (c : Cursor).

Record DateTime := mkDateTime {
  year : nat; month : nat; day : nat;
  hour : nat; minute : nat; second : nat
}.

Record World := mkWorld {
  (** [requests.post(url, json=body, timeout=t)] *)
  http : string -> PyVal -> Z -> Res Response;
  (** [open(path, 'r')] followed by [read()] *)
  file_system : string -> Res string;
  (** the store in file [db], asked to run [query] *)
  database : string -> string -> DbOutcome;
  (** the k-th reading of [datetime.now()] during the run *)
  clock : nat -> DateTime;
  (** the k-th raw draw of the [random] module during the run *)
  entropy : nat -> N;
  (** the text [generate_mock_transactions(50)] builds from the clock and
      the random module *)
  mock_transactions : string
}.

Inductive Event :=
| EvPost (url : string) (body : PyVal) (timeout : Z) (outcome : Res Response)
| EvOpenRead (path : string) (outcome : Res string)
| EvSqlite (db : string) (query : string) (outcome : DbOutcome).

Record St := mkSt {
  trace : list Event;
  clock_reads : nat;
  draws : nat
}.

Definition start : St := mkSt [] 0 0.

Definition record (ev : Event) (s : St) : St :=
  mkSt (trace s ++ [ev]) (clock_reads s) (draws s).

(** A computation may raise, and what it did before raising stays done. *)
Definition M (A : Type) : Type := St -> Res A * St.

Definition ret {A} (a : A) : M A := fun s => (Ret a, s).
Definition raise {A} (e : Exn) : M A := fun s => (Raise e, s).
Definition lift {A} (r : Res A) : M A := fun s => (r, s).

Definition bind {A B} (m : M A) (k : A -> M B) : M B :=
  fun s =>
    match m s with
    | (Ret a, s') => k a s'
    | (Raise e, s') => (Raise e, s')
    end.

(** [try: m  except Exception as e: handler e] *)
Definition try_except {A} (m : M A) (handler : Exn -> M A) : M A :=
  fun s =>
    match m s with
    | (Ret a, s') => (Ret a, s')
    | (Raise e, s') => handler e s'
    end.

Definition bind_res {A B} (r : Res A) (k : A -> Res B) : Res B :=
  match r with
  | Ret a => k a
  | Raise e => Raise e
  end.

Declare Scope py_scope.
Delimit Scope py_scope with py.
Notation "x <- m ;; k" := (bind m (fun x => k))
  (at level 61, m at next level, right associativity) : py_scope.
Notation "x <~ r ;; k" := (bind_res r (fun x => k))
  (at level 61, r at next level, right associativity) : py_scope.

(** [print(f"... {x} ...")]: the message is built from [x] and written to
    the console.  The console takes every text of the model (UTF-8 encodes
    every code point below 256), so the call returns, and it leaves no
    mark in the state.  A message of fixed words is left out of the
    functions below; one built from a value of the run is a [print] of
    that value, at the place the source has it. *)
Definition print {A} (interpolated : A) : M unit := ret tt.

Section Calls.
Variable w : World.

Definition post (url : string) (body : PyVal) (timeout : Z) : M Response :=
  fun s =>
    let outcome := http w url body timeout in
    (outcome, record (EvPost url body timeout outcome) s).

Definition open_read (path : string) : M string :=
  fun s =>
    let outcome := file_system w path in
    (outcome, record (EvOpenRead path outcome) s).

(** [sqlite3.connect(db)], [cursor.execute(query)] and [fetchall()], as
    one call against the store. *)
Definition sqlite (db query : string) : M DbOutcome :=
  fun s =>
    let outcome := database w db query in
    (Ret outcome, record (EvSqlite db query outcome) s).

Definition now : M DateTime :=
  fun s =>
    (Ret (clock w (clock_reads s)),
     mkSt (trace s) (S (clock_reads s)) (draws s)).

(** [random.randint(lo, hi)], for [lo <= hi] *)
Definition randint (lo hi : Z) : M Z :=
  fun s =>
    (Ret (lo + Z.of_N (entropy w (draws s)) mod (hi - lo + 1))%Z,
     mkSt (trace s) (clock_reads s) (S (draws s))).
End Calls.

(** [strftime] for the two formats the agents use. *)
Definition pad (width : nat) (n : nat) : string :=
  let d := str_of_nat n in
  String.concat "" (repeat "0" (width - String.length d)) ++ d.

(** ['%Y-%m-%d %H:%M:%S']; the year is written as the C library of Linux
    writes it for [%Y], without padding. *)
Definition strftime_iso (t : DateTime) : string :=
  str_of_nat (year t) ++ "-" ++ pad 2 (month t) ++ "-" ++ pad 2 (day t) ++ " " ++
  pad 2 (hour t) ++ ":" ++ pad 2 (minute t) ++ ":" ++ pad 2 (second t).

(** ['%Y%m%d%H%M%S'] *)
Definition strftime_compact (t : DateTime) : string :=
  str_of_nat (year t) ++ pad 2 (month t) ++ pad 2 (day t) ++
  pad 2 (hour t) ++ pad 2 (minute t) ++ pad 2 (second t).

(** The calls of a run, in order. *)
Definition calls {A} (m : M A) : list Event := trace (snd (m start)).
Definition result {A} (m : M A) : Res A := fst (m start).

End Effects.

(* ================================================================== *)
(** ** The fragment of [re] the file agent uses *)
(* ================================================================== *)

Module Regex.

Inductive re :=
| Chr (a : ascii)              (** a literal character *)
| Plus (cls : ascii -> bool)   (** [cls+], greedy *)
| Cat (r1 r2 : re).

(** [cls+] followed by [k]: the longer run is tried first, and a shorter one
    only when the rest of the pattern fails after the longer one.  The
    result is the number of characters matched. *)
Fixpoint plus_then (cls : ascii -> bool) (s : string)
                   (k : string -> option nat) : option nat :=
  match s with
  | EmptyString => None
  | String c s' =>
      if cls c
      then match plus_then cls s' k with
           | Some n => Some (S n)
           | None => option_map S (k s')
           end
      else None
  end.

Fixpoint match_then (r : re) (s : string)
                    (k : string -> option nat) : option nat :=
  match r with
  | Chr a =>
      match s with
      | String c s' => if Ascii.eqb c a then option_map S (k s') else None
      | EmptyString => None
      end
  | Plus cls => plus_then cls s k
  | Cat r1 r2 => match_then r1 s (fun s' => match_then r2 s' k)
  end.

(** [re.search(r, s)]: the match at the leftmost position that has one;
    the pattern of the agent is one group, so [group(1)] is the matched
    text. *)
Fixpoint search (r : re) (s : string) : option string :=
  match match_then r s (fun _ => Some 0) with
  | Some n => Some (substring 0 n s)
  | None =>
      match s with
      | EmptyString => None
      | String _ s' => search r s'
      end
  end.

End Regex.

(* ================================================================== *)
(** ** openclaw.py: the file agent *)
(* ================================================================== *)

Module OpenClaw.
Import Py Effects.
Local Open Scope py_scope.

Definition BIFROST_URL := "http://localhost:8000/bifrost/v1/chat/completions".
Definition GATEWAY_URL := "http://localhost:8000/api/validate".

Definition system_prompt : string :=
  join_lines
    [ "";
      "    You are OpenClaw, an autonomous agent. ";
      "    You have ONE tool: `read_local_file(filepath)`.";
      "    If the user asks you to read or summarize a file, you should output EXACTLY the filepath they want to read, and nothing else.";
      "    If they ask anything else, say " ++ dq ++ "I can only read files." ++ dq;
      "    " ].

Definition payload (task : string) : PyVal :=
  PDict [ ("model", PStr "glm-5:cloud");
          ("prompt", PStr (system_prompt ++ nl ++ "User request: " ++ task));
          ("temperature", PFloat "0.7") ].

(** [[\w/.-]] *)
Definition path_char (c : ascii) : bool :=
  (is_word c || Ascii.eqb c "/" || Ascii.eqb c "." || Ascii.eqb c "-")%bool.

(** [r'([\w/.-]+\.\w+)'] *)
Definition filename_pattern : Regex.re :=
  Regex.Cat (Regex.Plus path_char) (Regex.Cat (Regex.Chr ".") (Regex.Plus is_word)).

(** [[][-1]] raises; otherwise the last element. *)
Definition last_item (l : list string) : Res string :=
  match l with
  | [] => Raise (mkExn IndexError "list index out of range")
  | x :: rest => Ret (last rest x)
  end.

(** Lines 69-71, the body of the handler:
    [match.group(1) if match else (task.split()[-1] if task else "")] *)
Definition fallback_parse (task : string) : Res string :=
  match Regex.search filename_pattern task with
  | Some found => Ret found
  | None => if is_empty task then Ret "" else last_item (split task)
  end.

(** Lines 62-65: the content of the first choice, stripped; an empty one is
    turned into a [ValueError] (its message, which quotes the body, is cut
    short here). *)
Definition extract_action (response : Response) : Res string :=
  resp_json <~ json response ;;
  choices <~ get resp_json "choices" (PList [PDict []]) ;;
  first <~ item0 choices ;;
  message <~ get first "message" (PDict []) ;;
  content <~ get message "content" (PStr "") ;;
  action <~ strip_val content ;;
  if is_empty action
  then Raise (mkExn ValueError "Empty or malformed response from Bifrost")
  else Ret action.

Section Agent.
Variable w : World.

Definition read_local_file (filepath : string) : M string :=
  try_except (open_read w filepath)
             (fun e => ret ("Error reading file: " ++ exn_msg e)).

(** The prompt is written to the console (line 25) before the [try]. *)
Definition ask_gateway (prompt : string) : M bool :=
  _ <- print prompt ;;
  try_except
    (response <- post w GATEWAY_URL (PDict [("prompt", PStr prompt)]) 60 ;;
     if (status_code response =? 200)%Z
     then ret true
     else (body <- lift (json response) ;;
           detail <- lift (get body "detail" PNone) ;;
           _ <- print detail ;;
           ret false))
    (fun e => _ <- print e ;; ret false).

(** Lines 60-72 of [run_agent]: ask Bifrost for the action, and parse the
    task instead when that raises. *)
Definition propose_action (task : string) : M string :=
  try_except
    (response <- post w BIFROST_URL (payload task) 30 ;;
     lift (extract_action response))
    (fun e => _ <- print e ;;
              action <- lift (fallback_parse task) ;;
              _ <- print action ;;
              ret action).

(** The task (line 43) and a refusal of the model (line 75) are written to
    the console outside any [try]. *)
Definition run_agent (task : string) : M unit :=
  _ <- print task ;;
  action <- propose_action task ;;
  if contains "I can only read" action
  then (_ <- print action ;; ret tt)
  else
    let filepath_to_read := action in
    let gateway_prompt := "read file " ++ filepath_to_read in
    is_allowed <- ask_gateway gateway_prompt ;;
    if negb is_allowed
    then ret tt
    else (_ <- print filepath_to_read ;;
          content <- read_local_file filepath_to_read ;;
          _ <- print (slice_to 100 content
                      ++ (if (100 <? String.length content)%nat
                          then "..." else "")) ;;
          ret tt).
End Agent.

End OpenClaw.

(* ================================================================== *)
(** ** sql_guardian.py: the SQL agent *)
(* ================================================================== *)

Module SqlGuardian.
Import Py Effects.
Local Open Scope py_scope.

Definition BIFROST_URL := "http://localhost:8000/bifrost/v1/chat/completions".
Definition GATEWAY_VALIDATE_SQL_URL := "http://localhost:8000/api/validate-sql".
Definition DB_FILE := "mock_database.db".

(** A [dict] keeps its keys in the order of their first insertion; setting
    a key that is there replaces the value where it stands. *)
Definition Dict (V : Type) : Type := list (string * V).

Fixpoint dict_set {V} (k : string) (v : V) (d : Dict V) : Dict V :=
  match d with
  | [] => [(k, v)]
  | (k', v') :: rest =>
      if String.eqb k' k then (k', v) :: rest
      else (k', v') :: dict_set k v rest
  end.

(** [dict(pairs)] *)
Definition dict_of {V} (pairs : list (string * V)) : Dict V :=
  fold_left (fun d kv => dict_set (fst kv) (snd kv) d) pairs [].

(** [dict(zip(columns, row))] *)
Definition row_mapping (columns : list string) (row : list SqlValue)
  : Dict SqlValue :=
  dict_of (combine columns row).

(** *** [json.dumps(rows, indent=2)] *)

Definition hex_digit (n : N) : ascii :=
  if N.ltb n 10 then chr (48 + n) else chr (87 + n).

(** One character inside a JSON string, with [ensure_ascii] on. *)
Definition json_escape_char (c : ascii) : string :=
  let n := ord c in
  if N.eqb n 34 then "\" ++ dq
  else if N.eqb n 92 then "\\"
  else if N.eqb n 10 then "\n"
  else if N.eqb n 13 then "\r"
  else if N.eqb n 9 then "\t"
  else if N.eqb n 8 then "\b"
  else if N.eqb n 12 then "\f"
  else if between 32 126 n then String c ""
  else "\u00" ++ String (hex_digit (n / 16)) (String (hex_digit (n mod 16)) "").

Fixpoint json_escape (s : string) : string :=
  match s with
  | EmptyString => EmptyString
  | String c s' => json_escape_char c ++ json_escape s'
  end.

Definition json_string (s : string) : string := dq ++ json_escape s ++ dq.

Definition json_float (repr : string) : string :=
  if String.eqb repr "nan" then "NaN"
  else if String.eqb repr "inf" then "Infinity"
  else if String.eqb repr "-inf" then "-Infinity"
  else repr.

(** What [json.dumps] raises on a [bytes] value. *)
Definition bytes_error : Exn :=
  mkExn TypeError "Object of type bytes is not JSON serializable".

Definition json_value (v : SqlValue) : Res string :=
  match v with
  | SqlNull => Ret "null"
  | SqlInt z => Ret (str_of_Z z)
  | SqlReal r => Ret (json_float r)
  | SqlText s => Ret (json_string s)
  | SqlBlob _ => Raise bytes_error
  end.

Fixpoint map_res {A B} (f : A -> Res B) (l : list A) : Res (list B) :=
  match l with
  | [] => Ret []
  | x :: rest =>
      y <~ f x ;;
      ys <~ map_res f rest ;;
      Ret (y :: ys)
  end.

Definition json_entry (kv : string * SqlValue) : Res string :=
  v <~ json_value (snd kv) ;;
  Ret ("    " ++ json_string (fst kv) ++ ": " ++ v).

Definition json_row (d : Dict SqlValue) : Res string :=
  match d with
  | [] => Ret "  {}"
  | _ =>
      entries <~ map_res json_entry d ;;
      Ret ("  {" ++ nl ++ String.concat ("," ++ nl) entries ++ nl ++ "  }")
  end.

Definition json_dumps (formatted_results : list (Dict SqlValue)) : Res string :=
  match formatted_results with
  | [] => Ret "[]"
  | _ =>
      items <~ map_res json_row formatted_results ;;
      Ret ("[" ++ nl ++ String.concat ("," ++ nl) items ++ nl ++ "]")
  end.

Definition no_data : string := "Query executed successfully. No data returned.".

Definition is_nil {A} (l : list A) : bool :=
  match l with [] => true | _ => false end.

(** Lines 58-66, the body of the [try] of [execute_query]. *)
Definition format_rows (cursor : Cursor) : Res string :=
  let columns := match description cursor with
                 | Some names => names
                 | None => []
                 end in
  let results := rows cursor in
  if is_nil results
  then Ret no_data
  else
    let formatted_results := map (row_mapping columns) results in
    json_dumps formatted_results.

Definition prompt_head : string :=
  join_lines
    [ "";
      "    You are an AI assistant that translates natural language into SQL queries for a SQLite database.";
      "    The database has two tables:";
      "    1. users (id, username, password, role)";
      "    2. orders (id, user_id, product, amount)";
      "    ";
      "    Translate the following request into a SINGLE raw SQL query. ";
      "    Respond ONLY with the SQL query, no markdown, no explanation.";
      "    ";
      "    Request: " ].

Definition payload (intent : string) : PyVal :=
  PDict [ ("model", PStr "glm-5:cloud");
          ("prompt", PStr (prompt_head ++ intent ++ nl ++ "    "));
          ("temperature", PFloat "0.0") ].

(** [response.json()['choices'][0]['message']['content'].strip()], then
    the two [replace] and the second [strip]. *)
Definition extract_query (response : Response) : Res string :=
  body <~ json response ;;
  choices <~ item body "choices" ;;
  first <~ item0 choices ;;
  message <~ item first "message" ;;
  content <~ item message "content" ;;
  query <~ strip_val content ;;
  Ret (strip (replace "```" "" (replace "```sql" "" query))).

Definition validation_request (sql_query : string) : PyVal :=
  PDict [ ("query", PStr sql_query); ("agent_id", PStr "Database Guardian") ].

Section Agent.
Variable w : World.

(** The connection is opened before the [try] (line 55), so what [connect]
    raises leaves the function; what the statement, the fetch or the
    serialisation raise is caught and returned as text. *)
Definition execute_query (query : string) : M string :=
  outcome <- sqlite w DB_FILE query ;;
  match outcome with
  | ConnectFails e => raise e
  | ExecuteFails e => ret ("Database Error: " ++ exn_msg e)
  | Fetched cursor =>
      try_except (lift (format_rows cursor))
                 (fun e => ret ("Database Error: " ++ exn_msg e))
  end.

(** [None] when the model gave no query. *)
Definition generate_sql (intent : string) : M (option string) :=
  try_except
    (response <- post w BIFROST_URL (payload intent) 60 ;;
     if (status_code response =? 200)%Z
     then (query <- lift (extract_query response) ;;
           ret (Some query))
     else (_ <- print (text response) ;;
           ret None))
    (fun e => _ <- print e ;; ret None).

(** The generated query is written to the console (line 120) before the
    [try] that holds the rest of the run. *)
Definition run_agent (task_intent : string) : M unit :=
  _ <- print task_intent ;;
  generated <- generate_sql task_intent ;;
  match generated with
  | None => ret tt
  | Some sql_query =>
      if is_empty sql_query
      then ret tt
      else
        _ <- print sql_query ;;
        try_except
          (validation_response <-
             post w GATEWAY_VALIDATE_SQL_URL (validation_request sql_query) 10 ;;
           if (status_code validation_response =? 200)%Z
           then (results <- execute_query sql_query ;;
                 _ <- print results ;;
                 ret tt)
           else if (status_code validation_response =? 403)%Z
           then (body <- lift (json validation_response) ;;
                 detail <- lift (item body "detail") ;;
                 _ <- print detail ;;
                 ret tt)
           else (_ <- print (status_code validation_response) ;;
                 ret tt))
          (fun e => _ <- print e ;; ret tt)
  end.
End Agent.

End SqlGuardian.

(* ================================================================== *)
(** ** validator.py: the auditor *)
(* ================================================================== *)

Module Validator.
Import Py Effects.
Local Open Scope py_scope.

Definition BIFROST_URL := "http://localhost:8000/bifrost/v1/chat/completions".

Definition SAMPLE_CLEAN_SUMMARY : string :=
  join_lines
    [ "";
      "SUSPICIOUS ACTIVITY SUMMARY - Week of Jan 15, 2024";
      "==================================================";
      "";
      "1. LARGE TRANSFERS DETECTED:";
      "   - $10,000 transfer to Account X (Flagged: URGENT note)";
      "   - $50,000 transfer to ACC-OFFSHORE (Flagged: offshore)";
      "   - $25,000 wire to SWIFT: CHASUS33";
      "";
      "2. UNUSUAL PATTERNS:";
      "   - 3 transactions over $5,000 within 2 hours";
      "   - Multiple new merchant categories for Account ACC-1234";
      "   - Night-time transactions (unusual for this account profile)";
      "";
      "3. HIGH-RISK ACCOUNTS:";
      "   - ACC-9999: Multiple large transfers";
      "   - ACC-8888: Wire transfer to unknown entity";
      "";
      "4. RECOMMENDED ACTIONS:";
      "   - Review all transactions over $10,000 with customer verification";
      "   - Flag ACC-OFFSHORE transfers for AML review";
      "   - Request additional documentation for wire transfers";
      "" ].

Definition system_prompt : string :=
  join_lines
    [ "";
      "    You are a Financial Compliance Auditor. Create a professional compliance report";
      "    based on the following anonymized suspicious activity summary.";
      "    ";
      "    Format the report professionally with:";
      "    - Executive Summary";
      "    - Detailed Findings";
      "    - Risk Assessment";
      "    - Recommended Actions";
      "    - Compliance Notes";
      "    ";
      "    Ensure all data remains anonymized and suitable for regulatory submission.";
      "    " ].

Definition payload (clean_summary : string) : PyVal :=
  PDict [ ("model", PStr "m2.5");
          ("prompt", PStr (system_prompt ++ nl ++ nl ++ "ANONYMIZED SUMMARY:" ++ nl
                           ++ slice_to 2000 clean_summary));
          ("temperature", PFloat "0.3") ].

(** [resp_json.get('choices', [{}])[0].get('message', {}).get('content', '').strip()] *)
Definition extract_content (response : Response) : Res string :=
  resp_json <~ json response ;;
  choices <~ get resp_json "choices" (PList [PDict []]) ;;
  first <~ item0 choices ;;
  message <~ get first "message" (PDict []) ;;
  content <~ get message "content" (PStr "") ;;
  strip_val content.

(** Lines 110-146: the report written in place of the model's, from two
    readings of the clock and the format type. *)
Definition canned_report (generated : DateTime) (format_type : string)
                         (stamped : DateTime) : string :=
  join_lines
    [ "";
      "FINANCIAL COMPLIANCE REPORT";
      "===========================";
      "Generated: " ++ strftime_iso generated;
      "Report Type: " ++ upper format_type;
      "";
      "EXECUTIVE SUMMARY";
      "-----------------";
      "The analysis identified several transactions requiring review based on ";
      "the anonymized suspicious activity summary provided by the Data Cleaner agent.";
      "";
      "KEY FINDINGS";
      "------------";
      "1. Large Value Transactions: Multiple transactions exceeding $10,000 flagged";
      "2. Pattern Analysis: Unusual timing and frequency detected";
      "3. Risk Categories: High-value transfers, offshore destinations";
      "";
      "RISK ASSESSMENT";
      "---------------";
      "- HIGH: Wire transfers over $25,000 to unfamiliar recipients";
      "- MEDIUM: Multiple large debits within short timeframes";
      "- LOW: Standard merchant transactions";
      "";
      "RECOMMENDED ACTIONS";
      "-------------------";
      "1. Require secondary authorization for transactions over $10,000";
      "2. Verify source of funds for offshore transfers";
      "3. Implement 24-hour hold for wire transfers exceeding $25,000";
      "4. File Suspicious Activity Report (SAR) for ACC-OFFSHORE transfers";
      "";
      "COMPLIANCE NOTES";
      "---------------";
      "All data has been anonymized in compliance with PII protection requirements.";
      "This report is suitable for regulatory submission.";
      "";
      "Report ID: RPT-" ++ strftime_compact stamped;
      "        " ].

(** Line 109: ["Error" in report or "error" in report] *)
Definition looks_failed (report : string) : bool :=
  (contains "Error" report || contains "error" report)%bool.

Section Agent.
Variable w : World.

Definition generate_compliance_report (clean_summary format_type : string)
  : M string :=
  _ <- print format_type ;;
  try_except
    (response <- post w BIFROST_URL (payload clean_summary) 180 ;;
     if (status_code response =? 200)%Z
     then lift (extract_content response)
     else ret ("Bifrost error: " ++ text response))
    (fun e => ret ("Error generating report: " ++ exn_msg e)).

(** Lines 107-146 of [run_agent]: the report of the model, or the canned
    one when the text of the first looks like a failure. *)
Definition compile_report (clean_summary format_type : string) : M string :=
  report <- generate_compliance_report clean_summary format_type ;;
  if looks_failed report
  then (generated <- now w ;;
        stamped <- now w ;;
        ret (canned_report generated format_type stamped))
  else ret report.

(** [clean_summary] is [None] when the caller passes nothing. *)
Definition run_agent (clean_summary : option string) (format_type : string)
  : M PyVal :=
  let clean_summary := match clean_summary with
                       | None => SAMPLE_CLEAN_SUMMARY
                       | Some given => given
                       end in
  _ <- print (String.length clean_summary) ;;
  _ <- print (if (300 <? String.length clean_summary)%nat
              then slice_to 300 clean_summary ++ "..."
              else clean_summary) ;;
  report <- compile_report clean_summary format_type ;;
  ret (PDict [ ("status", PStr "success"); ("report", PStr report) ]).
End Agent.

End Validator.

(* ================================================================== *)
(** ** data_cleaner.py: the aggregator and the relay *)
(* ================================================================== *)

Module DataCleaner.
Import Py Effects.
Local Open Scope py_scope.

Definition BIFROST_URL := "http://localhost:8000/bifrost/v1/chat/completions".
Definition GATEWAY_ROUTER_URL := "http://localhost:8000/api/agent-message".

Definition system_prompt : string :=
  join_lines
    [ "";
      "    You are a financial compliance analyst agent. Analyze the following transaction logs";
      "    and identify suspicious activity patterns such as:";
      "    - Unusually large transactions";
      "    - Multiple rapid transactions";
      "    - Offshore transfers";
      "    - Unusual hours";
      "    ";
      "    Provide a summary of suspicious activity found. Be thorough but concise.";
      "    " ].

Definition payload (transactions_text : string) : PyVal :=
  PDict [ ("model", PStr "m2.5");
          ("prompt", PStr (system_prompt ++ nl ++ nl ++ "TRANSACTION LOGS:" ++ nl
                           ++ slice_to 3000 transactions_text));
          ("temperature", PFloat "0.3") ].

Definition extract_content (response : Response) : Res string :=
  resp_json <~ json response ;;
  choices <~ get resp_json "choices" (PList [PDict []]) ;;
  first <~ item0 choices ;;
  message <~ get first "message" (PDict []) ;;
  content <~ get message "content" (PStr "") ;;
  strip_val content.

(** Line 113: the summary written in place of the model's. *)
Definition canned_summary (transactions : string) (flagged : Z) : string :=
  "Analysis generated summary (LLM temporarily unavailable): Found "
  ++ str_of_nat (count_lines transactions)
  ++ " transactions analyzed. Flagged " ++ str_of_Z flagged
  ++ " suspicious items including large transfers and rapid successive debits.".

Definition envelope (summary : string) : PyVal :=
  PDict [ ("source_agent", PStr "data_cleaner");
          ("target_agent", PStr "validator");
          ("payload", PStr summary) ].

Section Agent.
Variable w : World.

Definition analyze_with_llm (transactions_text : string) : M string :=
  try_except
    (response <- post w BIFROST_URL (payload transactions_text) 60 ;;
     if (status_code response =? 200)%Z
     then lift (extract_content response)
     else ret ("Bifrost error: " ++ text response))
    (fun e => ret ("Error calling Bifrost: " ++ exn_msg e)).

(** Lines 104-113 of [run_agent]. *)
Definition summarize : M string :=
  let transactions := mock_transactions w in
  _ <- print (count_lines transactions) ;;
  summary <- analyze_with_llm transactions ;;
  if contains "Error" summary
  then (flagged <- randint w 3 8 ;;
        ret (canned_summary transactions flagged))
  else ret summary.

(** Lines 124-158 of [run_agent]: the envelope goes to the router; the
    message of the router is read for the console before the result is
    built. *)
Definition forward (summary : string) : M PyVal :=
  try_except
    (response <- post w GATEWAY_ROUTER_URL (envelope summary) 300 ;;
     if (status_code response =? 200)%Z
     then (resp_data <- lift (json response) ;;
           message <- lift (item resp_data "message") ;;
           _ <- print message ;;
           clean_payload <- lift (get resp_data "clean_payload" (PStr "")) ;;
           target_response <- lift (get resp_data "target_response" (PStr "")) ;;
           ret (PDict [ ("status", PStr "success");
                        ("raw_summary", PStr summary);
                        ("clean_payload_forwarded", clean_payload);
                        ("validator_report", target_response) ]))
     else (_ <- print (text response) ;;
           ret (PDict [ ("status", PStr "blocked");
                        ("reason", PStr (text response)) ])))
    (fun e => _ <- print e ;;
              ret (PDict [ ("status", PStr "error");
                           ("reason", PStr (exn_msg e)) ])).

(** The summary is written to the console (lines 115-117) before the
    [try] of the relay. *)
Definition run_agent (task : string) : M PyVal :=
  _ <- print task ;;
  summary <- summarize ;;
  _ <- print (String.length summary) ;;
  _ <- print (if (500 <? String.length summary)%nat
              then slice_to 500 summary ++ "..."
              else summary) ;;
  forward summary.
End Agent.

End DataCleaner.

(* ================================================================== *)
(** ** The vocabulary of the properties *)
(* ================================================================== *)

Module Gate.
Import Py Effects.

(** The two agents that execute an action behind the gateway. *)
Inductive Agent := FileAgent | SqlAgent.

Definition agent_run (w : World) (a : Agent) (task : string) : M unit :=
  match a with
  | FileAgent => OpenClaw.run_agent w task
  | SqlAgent => SqlGuardian.run_agent w task
  end.

(** The gateway says Allow exactly by a response of status 200. *)
Definition allowed (outcome : Res Response) : bool :=
  match outcome with
  | Ret response => (status_code response =? 200)%Z
  | Raise _ => false
  end.

Definition is_gateway_url (url : string) : bool :=
  (String.eqb url OpenClaw.GATEWAY_URL
   || String.eqb url SqlGuardian.GATEWAY_VALIDATE_SQL_URL)%bool.

Definition is_gateway_call (ev : Event) : bool :=
  match ev with
  | EvPost url _ _ _ => is_gateway_url url
  | _ => false
  end.

Definition gateway_allows (ev : Event) : bool :=
  match ev with
  | EvPost url _ _ outcome => (is_gateway_url url && allowed outcome)%bool
  | _ => false
  end.

(** The execution step: [read_local_file] opening the file, or
    [execute_query] going to the store. *)
Definition is_execution (ev : Event) : bool :=
  match ev with
  | EvOpenRead _ _ | EvSqlite _ _ _ => true
  | EvPost _ _ _ _ => false
  end.

(** The text an execution step acts on. *)
Definition executed_text (ev : Event) : option string :=
  match ev with
  | EvOpenRead path _ => Some path
  | EvSqlite _ query _ => Some query
  | EvPost _ _ _ _ => None
  end.

Definition text_field (key : string) (body : PyVal) : option string :=
  match body with
  | PDict entries =>
      match lookup key entries with
      | Some (PStr s) => Some s
      | _ => None
      end
  | _ => None
  end.

(** The text a gateway call submits for a decision: the prompt of the
    generic endpoint, the query of the statement endpoint. *)
Definition submitted_text (ev : Event) : option string :=
  match ev with
  | EvPost url body _ _ =>
      if String.eqb url OpenClaw.GATEWAY_URL then text_field "prompt" body
      else if String.eqb url SqlGuardian.GATEWAY_VALIDATE_SQL_URL
      then text_field "query" body
      else None
  | _ => None
  end.

(** [gated approves prev tr]: every execution step in [tr] comes directly
    after a call that approves it ([prev] is the call before [tr]). *)
Fixpoint gated (approves : Event -> Event -> Prop)
               (prev : option Event) (tr : list Event) : Prop :=
  match tr with
  | [] => True
  | ev :: rest =>
      (is_execution ev = true ->
       exists g, prev = Some g /\ approves g ev)
      /\ gated approves (Some ev) rest
  end.

(** The call [g] is an Allow for the very text [ev] executes. *)
Definition approves_same_text (g ev : Event) : Prop :=
  gateway_allows g = true /\
  exists t, submitted_text g = Some t /\ executed_text ev = Some t.

(** The request each agent builds from the text it is about to execute. *)
Definition request_for (ev : Event) : option (string * PyVal) :=
  match ev with
  | EvOpenRead path _ =>
      Some (OpenClaw.GATEWAY_URL,
            PDict [("prompt", PStr ("read file " ++ path))])
  | EvSqlite _ query _ =>
      Some (SqlGuardian.GATEWAY_VALIDATE_SQL_URL,
            SqlGuardian.validation_request query)
  | EvPost _ _ _ _ => None
  end.

(** The call [g] is an Allow for the request built from what [ev]
    executes. *)
Definition approves_request (g ev : Event) : Prop :=
  gateway_allows g = true /\
  exists url body timeout outcome,
    g = EvPost url body timeout outcome /\ request_for ev = Some (url, body).

Definition no_execution (tr : list Event) : Prop :=
  forall ev, In ev tr -> is_execution ev = false.

Definition gateway_call w (prompt : string) : Event :=
  EvPost OpenClaw.GATEWAY_URL (PDict [("prompt", PStr prompt)]) 60
         (http w OpenClaw.GATEWAY_URL (PDict [("prompt", PStr prompt)]) 60).

Definition bifrost_call w (task : string) : Event :=
  EvPost OpenClaw.BIFROST_URL (OpenClaw.payload task) 30
         (http w OpenClaw.BIFROST_URL (OpenClaw.payload task) 30).

(** What [propose_action] returns, read off the outcome of the call. *)
Definition proposal (outcome : Res Response) (task : string) : Res string :=
  match outcome with
  | Ret response =>
      match OpenClaw.extract_action response with
      | Ret action => Ret action
      | Raise _ => OpenClaw.fallback_parse task
      end
  | Raise _ => OpenClaw.fallback_parse task
  end.

Definition sql_bifrost_call w (intent : string) : Event :=
  EvPost SqlGuardian.BIFROST_URL (SqlGuardian.payload intent) 60
         (http w SqlGuardian.BIFROST_URL (SqlGuardian.payload intent) 60).

(** What [generate_sql] returns, read off the outcome of the call. *)
Definition generated_query (outcome : Res Response) : option string :=
  match outcome with
  | Ret response =>
      if (status_code response =? 200)%Z
      then match SqlGuardian.extract_query response with
           | Ret query => Some query
           | Raise _ => None
           end
      else None
  | Raise _ => None
  end.

Definition validation_call w (sql_query : string) : Event :=
  EvPost SqlGuardian.GATEWAY_VALIDATE_SQL_URL
         (SqlGuardian.validation_request sql_query) 10
         (http w SqlGuardian.GATEWAY_VALIDATE_SQL_URL
               (SqlGuardian.validation_request sql_query) 10).

(** What [analyze_with_llm] returns, read off the outcome of the call. *)
Definition analysis_text (outcome : Res Response) : string :=
  match outcome with
  | Ret response =>
      if (status_code response =? 200)%Z
      then match DataCleaner.extract_content response with
           | Ret summary => summary
           | Raise e => "Error calling Bifrost: " ++ exn_msg e
           end
      else "Bifrost error: " ++ text response
  | Raise e => "Error calling Bifrost: " ++ exn_msg e
  end.

(** What [generate_compliance_report] returns, read off the outcome of the
    call. *)
Definition report_text (outcome : Res Response) : string :=
  match outcome with
  | Ret response =>
      if (status_code response =? 200)%Z
      then match Validator.extract_content response with
           | Ret report => report
           | Raise e => "Error generating report: " ++ exn_msg e
           end
      else "Bifrost error: " ++ text response
  | Raise e => "Error generating report: " ++ exn_msg e
  end.

(** The calls of either agent, in one shape: the call to the model, then
    possibly the call to the gateway, then possibly the execution. *)
Inductive RunShape : list Event -> Prop :=
| shape_no_proposal model :
    is_execution model = false -> is_gateway_call model = false ->
    RunShape [model]
| shape_denied model g :
    is_execution model = false -> is_gateway_call model = false ->
    is_gateway_call g = true -> gateway_allows g = false ->
    RunShape [model; g]
| shape_executed model g ev url body timeout outcome :
    is_execution model = false -> is_gateway_call model = false ->
    gateway_allows g = true ->
    g = EvPost url body timeout outcome ->
    request_for ev = Some (url, body) ->
    is_execution ev = true ->
    RunShape [model; g; ev].

End Gate.

(* ================================================================== *)
(** ** The words of the specification *)
(* ================================================================== *)

Module Spec.
Import Py Effects.

(** The content field of a completion,
    [{choices: [{message: {content}}]}], when the body has that shape. *)
Definition content_field (body : PyVal) : option string :=
  match body with
  | PDict top =>
      match lookup "choices" top with
      | Some (PList (PDict first :: _)) =>
          match lookup "message" first with
          | Some (PDict message) =>
              match lookup "content" message with
              | Some (PStr s) => Some s
              | _ => None
              end
          | _ => None
          end
      | _ => None
      end
  | _ => None
  end.

(** The content a response carries: none when the body does not decode,
    when the field is missing, or when it is empty once stripped. *)
Definition usable_content (response : Response) : option string :=
  match json response with
  | Ret body =>
      match content_field body with
      | Some s => if is_empty (strip s) then None else Some (strip s)
      | None => None
      end
  | Raise _ => None
  end.

(** "The generation endpoint fails: transport failure, non-success status,
    or missing/empty content field." *)
Inductive GenerationFails : Res Response -> Prop :=
| fails_in_transport e :
    GenerationFails (Raise e)
| fails_by_status response :
    status_code response <> 200%Z -> GenerationFails (Ret response)
| fails_without_content response :
    usable_content response = None -> GenerationFails (Ret response).

(** The same without the status: nothing arrived, or what arrived carries
    no content. *)
Inductive NothingUsable : Res Response -> Prop :=
| nothing_arrived e :
    NothingUsable (Raise e)
| nothing_inside response :
    usable_content response = None -> NothingUsable (Ret response).

(** "Strings consisting only of whitespace" (the empty one among them). *)
Fixpoint all_space (s : string) : bool :=
  match s with
  | EmptyString => true
  | String c s' => (is_space c && all_space s')%bool
  end.

(** A value [json.dumps] has no encoding for. *)
Definition is_blob (v : SqlValue) : bool :=
  match v with SqlBlob _ => true | _ => false end.

Definition serialisable (d : SqlGuardian.Dict SqlValue) : bool :=
  forallb (fun kv => negb (is_blob (snd kv))) d.

(** A fetched row one of whose values is a BLOB. *)
Definition holds_blob (row : list SqlValue) : bool := existsb is_blob row.



Definition lower_char (c : ascii) : ascii :=
  let n := ord c in
  if (between 65 90 n || between 192 214 n || between 216 222 n)%bool
  then chr (n + 32) else c.

Fixpoint lower (s : string) : string :=
  match s with
  | EmptyString => EmptyString
  | String c s' => String (lower_char c) (lower s')
  end.

(** "An explicit degraded-mode marker": words by which a text says of
    itself that it does not come from the model. *)
Definition degraded_markers : list string :=
  [ "unavailable"; "degraded"; "fallback"; "fall-back"; "offline";
    "placeholder"; "template"; "canned"; "synthetic"; "not generated";
    "could not be generated"; "outage"; "non-authoritative" ].

Definition marked_degraded (output : string) : bool :=
  existsb (fun marker => contains marker (lower output)) degraded_markers.

End Spec.

(* ================================================================== *)
(** ** Worlds to run the agents in *)
(* ================================================================== *)

Module Scenario.
Import Py Effects.

Definition refused : Exn :=
  mkExn ConnectionError "Connection refused".

Definition timed_out : Exn :=
  mkExn Timeout "Read timed out. (read timeout=60)".

Definition replies (status : Z) (raw : string) (body : PyVal) : Res Response :=
  Ret (mkResponse status raw (Ret body)).

(** The body of a completion whose first choice says [content]. *)
Definition completion (content : string) : PyVal :=
  PDict [("choices",
          PList [PDict [("message", PDict [("content", PStr content)])]])].

Definition is_bifrost (url : string) : bool :=
  String.eqb url OpenClaw.BIFROST_URL.

Definition one_file (name content : string) (path : string) : Res string :=
  if String.eqb path name then Ret content
  else Raise (mkExn FileNotFoundError
                ("[Errno 2] No such file or directory: '" ++ path ++ "'")).

Definition morning : DateTime := mkDateTime 2024 1 15 9 23 45.

Definition world_with (net : string -> PyVal -> Z -> Res Response) : World :=
  mkWorld net
          (one_file "report.csv" "id,amount")
          (fun _ _ => Fetched (mkCursor None []))
          (fun _ => morning)
          (fun _ => 0%N)
          "2024-01-15 09:23:45 | Account: ACC-7829 | Type: DEBIT | Amount: $45.67 | Merchant: Amazon".

(** The model cannot be reached; every other endpoint answers 200. *)
Definition model_down : World :=
  world_with (fun url _ _ =>
                if is_bifrost url then Raise refused
                else replies 200 "{}" (PDict [])).

(** The model cannot be reached and the gateway does not answer in time. *)
Definition gateway_silent : World :=
  world_with (fun url _ _ =>
                if is_bifrost url then Raise refused else Raise timed_out).

(** The model answers with status 500 and a completion all the same. *)
Definition model_500_with_content : World :=
  world_with (fun url _ _ =>
                if is_bifrost url
                then replies 500 "Internal Server Error" (completion "notes.txt")
                else replies 200 "{}" (PDict [])).

(** The store answers a query with one row that holds a BLOB. *)
Definition store_with_blob : World :=
  mkWorld (fun _ _ _ => replies 200 "{}" (PDict []))
          (one_file "report.csv" "id,amount")
          (fun _ _ =>
             Fetched (mkCursor (Some ["id"; "token"])
                               [[SqlInt 1; SqlBlob ["a"%char; "b"%char]]]))
          (fun _ => morning)
          (fun _ => 0%N)
          "".

Definition orders_query : string := "SELECT * FROM orders WHERE user_id = 1".

(** The rows [setup_mock_db] puts into [orders]. *)
Definition orders : Cursor :=
  mkCursor (Some ["id"; "user_id"; "product"; "amount"])
           [ [SqlInt 1; SqlInt 1; SqlText "Laptop"; SqlReal "1200.0"];
             [SqlInt 2; SqlInt 1; SqlText "Mouse"; SqlReal "25.0"];
             [SqlInt 3; SqlInt 1; SqlText "Keyboard"; SqlReal "75.0"] ].

(** The model writes the query inside a fence, the gateway allows it and
    the store holds the mock orders. *)
Definition orders_world : World :=
  mkWorld (fun url _ _ =>
             if is_bifrost url
             then replies 200 ""
                    (completion ("```sql" ++ nl ++ orders_query ++ nl ++ "```"))
             else replies 200 "{}" (PDict []))
          (one_file "report.csv" "id,amount")
          (fun _ query =>
             if String.eqb query orders_query then Fetched orders
             else ExecuteFails (mkExn DatabaseError "no such table"))
          (fun _ => morning)
          (fun _ => 0%N)
          "".

Definition routed : PyVal :=
  PDict [ ("message", PStr "Message routed");
          ("clean_payload", PStr "X");
          ("target_response", PStr "Y") ].

(** The model summarises, and the router answers 200 with the three
    fields of its success response. *)
Definition router_ok : World :=
  world_with (fun url _ _ =>
                if is_bifrost url
                then replies 200 "" (completion "Three large transfers flagged.")
                else replies 200 "" routed).

(** The same, the router leaving [message] out. *)
Definition router_without_message : World :=
  world_with (fun url _ _ =>
                if is_bifrost url
                then replies 200 "" (completion "Three large transfers flagged.")
                else replies 200 ""
                       (PDict [ ("clean_payload", PStr "X");
                                ("target_response", PStr "Y") ])).

(** [model_down] at another state of the random module. *)
Definition model_down_redrawn : World :=
  mkWorld (http model_down) (file_system model_down) (database model_down)
          (clock model_down) (fun _ => 1%N) (mock_transactions model_down).

(** [model_down] a second later. *)
Definition model_down_later : World :=
  mkWorld (http model_down) (file_system model_down) (database model_down)
          (fun _ => mkDateTime 2024 1 15 9 23 46)
          (entropy model_down) (mock_transactions model_down).



End Scenario.

(* ================================================================== *)
(** ** Further text operations *)
(* ================================================================== *)

Module Text.
Import Py.

Definition first_is_space (s : string) : bool :=
  match s with
  | EmptyString => false
  | String c _ => is_space c
  end.

Fixpoint last_is_space (s : string) : bool :=
  match s with
  | EmptyString => false
  | String c s' =>
      match s' with
      | EmptyString => is_space c
      | String _ _ => last_is_space s'
      end
  end.

(** Some character of [s] is whitespace. *)
Fixpoint has_space (s : string) : bool :=
  match s with
  | EmptyString => false
  | String c s' => (is_space c || has_space s')%bool
  end.

Fixpoint all_chars (p : ascii -> bool) (s : string) : bool :=
  match s with
  | EmptyString => true
  | String c s' => (p c && all_chars p s')%bool
  end.


(** The characters a pattern can consume. *)
Fixpoint alphabet (r : Regex.re) (c : ascii) : bool :=
  match r with
  | Regex.Chr a => Ascii.eqb c a
  | Regex.Plus cls => cls c
  | Regex.Cat r1 r2 => (alphabet r1 c || alphabet r2 c)%bool
  end.

(** [part] occurs in [whole], as written. *)
Definition occurs_in (part whole : string) : Prop :=
  exists before after, whole = before ++ part ++ after.

(** [s.splitlines()]; the same walk as [count_lines_from], [cur] being the
    line that is read. *)
Fixpoint splitlines_from (s cur : string) (open after_cr : bool) : list string :=
  match s with
  | EmptyString => if open then [cur] else []
  | String c s' =>
      if (after_cr && N.eqb (ord c) 10 && negb open)%bool
      then splitlines_from s' "" false false
      else if is_linebreak c
      then cur :: splitlines_from s' "" false (N.eqb (ord c) 13)
      else splitlines_from s' (cur ++ String c "") true false
  end.

Definition splitlines (s : string) : list string :=
  splitlines_from s "" false false.

(** [s.split(sep)] for a non-empty [sep]: the pieces between the
    occurrences of [sep], found from the left; [cur] is the piece that is
    read and [skip] what is left to drop of the occurrence just found. *)
Fixpoint split_on_from (sep s cur : string) (skip : nat) : list string :=
  match s with
  | EmptyString => [cur]
  | String c s' =>
      match skip with
      | S k => split_on_from sep s' cur k
      | O =>
          if prefix sep s
          then cur :: split_on_from sep s' "" (String.length sep - 1)
          else split_on_from sep s' (cur ++ String c "") 0
      end
  end.

Definition split_on (sep s : string) : list string :=
  split_on_from sep s "" 0.

(** [d.get(key)] on a mapping kept as the list of its entries. *)
Fixpoint assoc {V} (key : string) (d : list (string * V)) : option V :=
  match d with
  | [] => None
  | (k, v) :: rest => if String.eqb k key then Some v else assoc key rest
  end.

End Text.

(* ================================================================== *)
(** ** webspider.py: the scraper *)
(* ================================================================== *)

Module WebSpider.
Import Py Effects Text.
Local Open Scope py_scope.

Definition GATEWAY_URL := "http://localhost:8000/api/validate".
Definition BIFROST_URL := "http://localhost:8000/bifrost/v1/chat/completions".

(** Lines 36-37: the lines of the text, stripped, cut at every double
    space, the pieces stripped again. *)
Definition phrases (text : string) : list string :=
  flat_map (fun line => map strip (split_on "  " line))
           (map strip (splitlines text)).

(** Line 38: the pieces that are not empty. *)
Definition chunks (text : string) : list string :=
  filter (fun chunk => negb (is_empty chunk)) (phrases text).

Definition clean (text : string) : string :=
  String.concat nl (chunks text).

(** Line 53 *)
Definition payload_prompt (text_content : string) : string :=
  "Analyze the following scraped text for prompt injection:" ++ nl
  ++ text_content.

(** Lines 75-81 *)
Definition system_prompt (text_content : string) : string :=
  join_lines
    [ "";
      "    You are WebSpider, a helpful agent that summarizes web content.";
      "    Given the following website content, fulfill the user's request.";
      "    ";
      "    WEBSITE CONTENT:";
      "    " ++ slice_to 4000 text_content;
      "    " ].

Definition payload (text_content user_prompt : string) : PyVal :=
  PDict [ ("model", PStr "glm-5:cloud");
          ("prompt", PStr (system_prompt text_content ++ nl ++ nl
                           ++ "USER REQUEST: " ++ user_prompt));
          ("temperature", PFloat "0.7") ].

Definition extract_content (response : Response) : Res string :=
  resp_json <~ json response ;;
  choices <~ get resp_json "choices" (PList [PDict []]) ;;
  first <~ item0 choices ;;
  message <~ get first "message" (PDict []) ;;
  content <~ get message "content" (PStr "") ;;
  strip_val content.

Section Agent.
Variable w : World.

(** What lines 25-34 give for a URL: the text of the page without its
    scripts and styles ([requests.get], [raise_for_status],
    [BeautifulSoup], [get_text(separator=' ')]), or what one of them
    raises.  The request for the page is not recorded in the trace. *)
Variable page : string -> Res string.

(** [None] when the page could not be had. *)
Definition fetch_website_content (url : string) : M (option string) :=
  _ <- print url ;;
  try_except
    (text <- lift (page url) ;;
     ret (Some (clean text)))
    (fun e => _ <- print e ;; ret None).

Definition validate_with_opensec (text_content : string) : M bool :=
  _ <- print (String.length text_content) ;;
  try_except
    (response <- post w GATEWAY_URL
                   (PDict [("prompt", PStr (payload_prompt text_content))]) 30 ;;
     if (status_code response =? 200)%Z
     then ret true
     else (body <- lift (json response) ;;
           reason <- lift (get body "detail" (PStr "Unknown block reason")) ;;
           _ <- print reason ;;
           ret false))
    (fun e => _ <- print e ;; ret false).

Definition summarize_with_bifrost (text_content user_prompt : string) : M unit :=
  try_except
    (response <- post w BIFROST_URL (payload text_content user_prompt) 60 ;;
     if (status_code response =? 200)%Z
     then (action <- lift (extract_content response) ;;
           if is_empty action
           then print (json response)
           else print action)
     else print (text response))
    (fun e => print e).

Definition run_agent (task target_url : string) : M unit :=
  _ <- print task ;;
  _ <- print target_url ;;
  fetched <- fetch_website_content target_url ;;
  match fetched with
  | None => ret tt
  | Some raw_text =>
      if is_empty raw_text
      then ret tt
      else
        _ <- print (String.length raw_text) ;;
        is_safe <- validate_with_opensec raw_text ;;
        if negb is_safe
        then ret tt
        else summarize_with_bifrost raw_text task
  end.
End Agent.

End WebSpider.

(* ================================================================== *)
(** ** More worlds *)
(* ================================================================== *)

Module Cases.
Import Py Effects Scenario.

(** The model declines. *)
Definition model_declines : World :=
  world_with (fun url _ _ =>
                if is_bifrost url
                then replies 200 "" (completion "I can only read files.")
                else replies 200 "{}" (PDict [])).

(** The model answers with a path wrapped in blanks. *)
Definition model_pads : World :=
  world_with (fun url _ _ =>
                if is_bifrost url
                then replies 200 "" (completion "  report.csv  ")
                else replies 200 "{}" (PDict [])).

(** The gateway denies with a body that is no JSON. *)
Definition gateway_denies_badly : World :=
  world_with (fun url _ _ =>
                if is_bifrost url then Raise refused
                else Ret (mkResponse 403 "<html>Forbidden</html>"
                            (Raise (mkExn JSONDecodeError
                                      "Expecting value: line 1 column 1 (char 0)")))).

(** The store cannot be opened. *)
Definition store_locked : World :=
  mkWorld (http orders_world) (file_system orders_world)
          (fun _ _ => ConnectFails (mkExn DatabaseError
                                      "unable to open database file"))
          (clock orders_world) (entropy orders_world)
          (mock_transactions orders_world).

(** The model is overloaded: status 503 and a plain body. *)
Definition model_overloaded : World :=
  world_with (fun url _ _ =>
                if is_bifrost url
                then Ret (mkResponse 503 "upstream busy"
                            (Raise (mkExn JSONDecodeError
                                      "Expecting value: line 1 column 1 (char 0)")))
                else replies 200 "" routed).

(** The router itself fails with status 500. *)
Definition router_faults : World :=
  world_with (fun url _ _ =>
                if is_bifrost url
                then replies 200 "" (completion "Three large transfers flagged.")
                else Ret (mkResponse 500 "Internal Server Error"
                            (Raise (mkExn JSONDecodeError
                                      "Expecting value: line 1 column 1 (char 0)")))).

Definition front_page (url : string) : Res string :=
  if String.eqb url "https://example.org"
  then Ret ("  Top story   today " ++ nl ++ nl ++ " Weather:  rain ")
  else Raise (mkExn ConnectionError "Name or service not known").

End Cases.

(* ================================================================== *)
(** ** What each step does to the trace *)
(* ================================================================== *)

Module Steps.
Import Py Effects Gate.

Lemma read_local_file_run w filepath s :
  OpenClaw.read_local_file w filepath s =
  (Ret match file_system w filepath with
       | Ret content => content
       | Raise e => "Error reading file: " ++ exn_msg e
       end,
   record (EvOpenRead filepath (file_system w filepath)) s).
Proof.
  unfold OpenClaw.read_local_file, try_except, open_read.
  destruct (file_system w filepath); reflexivity.
Qed.

Lemma ask_gateway_run w prompt s :
  OpenClaw.ask_gateway w prompt s =
  (Ret (gateway_allows (gateway_call w prompt)),
   record (gateway_call w prompt) s).
Proof.
  unfold OpenClaw.ask_gateway, gateway_call, try_except, bind, post, lift,
    print, ret.
  cbn [gateway_allows].
  change (is_gateway_url OpenClaw.GATEWAY_URL) with true.
  cbn [andb].
  destruct (http w _ _ _) as [response | e]; cbn [allowed]; [| reflexivity].
  destruct (status_code response =? 200)%Z; [reflexivity |].
  destruct (json response) as [body | e]; [| reflexivity].
  destruct (get body "detail" PNone); reflexivity.
Qed.

Lemma propose_action_run w task s :
  OpenClaw.propose_action w task s =
  (proposal (http w OpenClaw.BIFROST_URL (OpenClaw.payload task) 30) task,
   record (bifrost_call w task) s).
Proof.
  unfold OpenClaw.propose_action, bifrost_call, proposal,
    try_except, bind, post, lift, print, ret.
  destruct (http w _ _ _) as [response | e];
    [| destruct (OpenClaw.fallback_parse task); reflexivity].
  destruct (OpenClaw.extract_action response); [reflexivity |].
  destruct (OpenClaw.fallback_parse task); reflexivity.
Qed.

(** The calls of a run of the file agent. *)
Lemma file_agent_run w task :
  OpenClaw.run_agent w task start =
  match proposal (http w OpenClaw.BIFROST_URL (OpenClaw.payload task) 30) task with
  | Raise e => (Raise e, mkSt [bifrost_call w task] 0 0)
  | Ret action =>
      if contains "I can only read" action
      then (Ret tt, mkSt [bifrost_call w task] 0 0)
      else
        let g := gateway_call w ("read file " ++ action) in
        if gateway_allows g
        then (Ret tt,
              mkSt [bifrost_call w task; g;
                    EvOpenRead action (file_system w action)] 0 0)
        else (Ret tt, mkSt [bifrost_call w task; g] 0 0)
  end.
Proof.
  unfold OpenClaw.run_agent, bind at 1, print at 1, ret at 1.
  unfold bind at 1. rewrite propose_action_run.
  destruct (proposal _ task) as [action | e]; [| reflexivity].
  destruct (contains "I can only read" action); [reflexivity |].
  unfold bind at 1. rewrite ask_gateway_run.
  destruct (gateway_allows _); cbn [negb]; [| reflexivity].
  unfold bind, print, ret. rewrite read_local_file_run. reflexivity.
Qed.

Lemma generate_sql_run w intent s :
  SqlGuardian.generate_sql w intent s =
  (Ret (generated_query
          (http w SqlGuardian.BIFROST_URL (SqlGuardian.payload intent) 60)),
   record (sql_bifrost_call w intent) s).
Proof.
  unfold SqlGuardian.generate_sql, sql_bifrost_call, generated_query,
    try_except, bind, post, lift, print, ret.
  destruct (http w _ _ _) as [response | e]; [| reflexivity].
  destruct (status_code response =? 200)%Z; [| reflexivity].
  destruct (SqlGuardian.extract_query response); reflexivity.
Qed.

Lemma execute_query_run w query s :
  snd (SqlGuardian.execute_query w query s) =
  record (EvSqlite SqlGuardian.DB_FILE query
                   (database w SqlGuardian.DB_FILE query)) s.
Proof.
  unfold SqlGuardian.execute_query, bind, sqlite, try_except, lift.
  destruct (database w _ query) as [e | e | cursor]; try reflexivity.
  destruct (SqlGuardian.format_rows cursor); reflexivity.
Qed.

(** The calls of a run of the SQL agent. *)
Lemma sql_agent_run w task :
  SqlGuardian.run_agent w task start =
  (Ret tt,
   mkSt
     match generated_query
             (http w SqlGuardian.BIFROST_URL (SqlGuardian.payload task) 60) with
     | None => [sql_bifrost_call w task]
     | Some sql_query =>
         if is_empty sql_query
         then [sql_bifrost_call w task]
         else
           let g := validation_call w sql_query in
           if gateway_allows g
           then [sql_bifrost_call w task; g;
                 EvSqlite SqlGuardian.DB_FILE sql_query
                          (database w SqlGuardian.DB_FILE sql_query)]
           else [sql_bifrost_call w task; g]
     end 0 0).
Proof.
  unfold SqlGuardian.run_agent, bind at 1, print at 1, ret at 1.
  unfold bind at 1. rewrite generate_sql_run.
  destruct (generated_query _) as [sql_query |]; [| reflexivity].
  destruct (is_empty sql_query); [reflexivity |].
  unfold validation_call, try_except, bind, post, lift, print, ret.
  cbn [gateway_allows].
  change (is_gateway_url SqlGuardian.GATEWAY_VALIDATE_SQL_URL) with true.
  cbn [andb].
  destruct (http w SqlGuardian.GATEWAY_VALIDATE_SQL_URL _ _)
    as [response | e]; cbn [allowed]; [| reflexivity].
  destruct (status_code response =? 200)%Z.
  - pose proof (execute_query_run w sql_query
      (record (EvPost SqlGuardian.GATEWAY_VALIDATE_SQL_URL
                 (SqlGuardian.validation_request sql_query) 10 (Ret response))
              (record (sql_bifrost_call w task) start))) as Hrun.
    destruct (SqlGuardian.execute_query w sql_query _) as [[out | e] s'];
      cbn [snd] in Hrun; subst s'; reflexivity.
  - destruct (status_code response =? 403)%Z; [| reflexivity].
    destruct (json response) as [body | e]; [| reflexivity].
    destruct (item body "detail"); reflexivity.
Qed.

Lemma gateway_allows_is_call g :
  gateway_allows g = true -> is_gateway_call g = true.
Proof.
  destruct g; cbn; try discriminate.
  intros H. apply andb_prop in H. apply H.
Qed.

Lemma agent_run_shape w a task :
  RunShape (calls (agent_run w a task)).
Proof.
  unfold calls. destruct a; cbn [agent_run].
  - rewrite file_agent_run.
    destruct (proposal _ task) as [action | e];
      [| now apply shape_no_proposal].
    destruct (contains "I can only read" action);
      [now apply shape_no_proposal |].
    cbv zeta.
    destruct (gateway_allows (gateway_call w _)) eqn:Hallow; cbn [snd trace].
    + eapply shape_executed; try reflexivity. exact Hallow.
    + now apply shape_denied.
  - rewrite sql_agent_run. cbn [snd trace].
    destruct (generated_query _) as [sql_query |];
      [| now apply shape_no_proposal].
    destruct (is_empty sql_query); [now apply shape_no_proposal |].
    cbv zeta.
    destruct (gateway_allows (validation_call w _)) eqn:Hallow.
    + eapply shape_executed; try reflexivity. exact Hallow.
    + now apply shape_denied.
Qed.

(** The request an Allow was given for leaves no choice of the text that
    is executed under it. *)
Lemma request_determines_text ev1 ev2 request :
  request_for ev1 = Some request -> request_for ev2 = Some request ->
  executed_text ev1 = executed_text ev2.
Proof.
  destruct ev1, ev2; cbn; try discriminate; intros H1 H2;
    rewrite <- H1 in H2; clear H1; try discriminate.
  - cbn in H2. congruence.
  - unfold SqlGuardian.validation_request in H2. congruence.
Qed.

Lemma shape_gated tr :
  RunShape tr -> gated approves_request None tr.
Proof.
  intros [model Hm _ | model g Hm _ Hg _
         | model g ev url body timeout outcome Hm _ Hallow Hg Hreq Hev];
    cbn [gated]; repeat split; try congruence.
  - destruct g; cbn in *; congruence.
  - apply gateway_allows_is_call in Hallow.
    destruct g; cbn in *; congruence.
  - intros _. exists g. split; [reflexivity |].
    split; [exact Hallow |]. now exists url, body, timeout, outcome.
Qed.

Lemma shape_fail_closed tr g :
  RunShape tr -> In g tr ->
  is_gateway_call g = true -> gateway_allows g = false ->
  no_execution tr /\ exists before, tr = (before ++ [g])%list.
Proof.
  intros [model Hm Hmg | model g' Hm Hmg Hg' Hdeny
         | model g' ev url body timeout outcome Hm Hmg Hallow Hg' Hreq Hev]
         Hin Hcall Hdenied.
  - destruct Hin as [Heq | []]. subst g. congruence.
  - destruct Hin as [Heq | [Heq | []]]; subst g; [congruence |].
    split; [| now exists [model]].
    intros ev [Heq | [Heq | []]]; subst ev; [exact Hm |].
    destruct g'; cbn in *; congruence.
  - exfalso. destruct Hin as [Heq | [Heq | [Heq | []]]]; subst g;
      [congruence .. |].
    destruct ev; cbn in *; congruence.
Qed.

Lemma agent_returns_after_gateway w a task g :
  In g (calls (agent_run w a task)) -> is_gateway_call g = true ->
  result (agent_run w a task) = Ret tt.
Proof.
  unfold calls, result. destruct a; cbn [agent_run].
  - rewrite file_agent_run.
    destruct (proposal _ task) as [action | e].
    + destruct (contains "I can only read" action); [reflexivity |].
      cbv zeta. destruct (gateway_allows _); reflexivity.
    + cbn [snd trace]. intros [<- | []]. discriminate.
  - rewrite sql_agent_run. reflexivity.
Qed.

(** The chain of [get] and [strip] finds the content exactly when the
    body carries one. *)
Lemma extract_action_usable response :
  match Spec.usable_content response with
  | Some action => OpenClaw.extract_action response = Ret action
  | None => exists e, OpenClaw.extract_action response = Raise e
  end.
Proof.
  unfold Spec.usable_content, Spec.content_field, OpenClaw.extract_action,
    bind_res.
  destruct (json response) as [body | e]; [| eauto].
  destruct body; cbn [get]; eauto.
  destruct (lookup "choices" entries) as [choices |]; cbn [item0 get lookup];
    [| cbn; eauto].
  destruct choices as [| | | | text | [| first rest] |]; cbn [item0];
    eauto.
  - destruct text; cbn; eauto.
  - destruct first; cbn [get]; eauto.
    destruct (lookup "message" entries0) as [message |]; [| cbn; eauto].
    destruct message; cbn [get]; eauto.
    destruct (lookup "content" entries1) as [content |]; [| cbn; eauto].
    destruct content; cbn [strip_val]; eauto.
    destruct (is_empty (strip s)); eauto.
Qed.

Lemma proposal_without_content outcome task :
  Spec.NothingUsable outcome -> proposal outcome task = OpenClaw.fallback_parse task.
Proof.
  intros [e | response Hnone]; [reflexivity |].
  cbn [proposal].
  pose proof (extract_action_usable response) as Hextract.
  rewrite Hnone in Hextract. destruct Hextract as [e ->]. reflexivity.
Qed.

(** *** The fallback and blank tasks *)

Lemma split_from_nil s cur :
  split_from s cur = [] -> cur = "" /\ Spec.all_space s = true.
Proof.
  revert cur. induction s as [| c s IH]; intros cur; cbn [split_from Spec.all_space].
  - destruct cur; [auto | discriminate].
  - destruct (is_space c).
    + destruct cur; cbn [is_empty]; [| discriminate].
      intros H. apply IH in H. cbn [andb]. tauto.
    + intros H. apply IH in H. destruct H as [H _].
      destruct cur; discriminate.
Qed.

Lemma space_is_no_path_char c :
  is_space c = true -> OpenClaw.path_char c = false.
Proof.
  destruct c as [[] [] [] [] [] [] [] []]; vm_compute; congruence.
Qed.

Lemma search_blank s :
  Spec.all_space s = true ->
  Regex.search OpenClaw.filename_pattern s = None.
Proof.
  induction s as [| c s IH]; [reflexivity |].
  cbn [Spec.all_space]. intros H. apply andb_prop in H. destruct H as [Hc Hs].
  cbn [Regex.search Regex.match_then OpenClaw.filename_pattern Regex.plus_then].
  rewrite (space_is_no_path_char c Hc). now apply IH.
Qed.

(** The fallback raises on the blank tasks that are not empty, and on no
    other task. *)
Lemma fallback_parse_raises_iff task :
  (exists e, OpenClaw.fallback_parse task = Raise e)
  <-> (task <> "" /\ Spec.all_space task = true).
Proof.
  unfold OpenClaw.fallback_parse. split.
  - intros [e He].
    destruct (Regex.search _ task); [discriminate |].
    destruct task as [| c task]; [discriminate |]. cbn [is_empty] in He.
    split; [discriminate |].
    unfold split in He.
    destruct (split_from (String c task) "") eqn:Hsplit; [| discriminate].
    now apply split_from_nil in Hsplit.
  - intros [Hne Hblank]. rewrite (search_blank task Hblank).
    destruct task as [| c task]; [congruence |]. cbn [is_empty].
    assert (Hnil : forall s, Spec.all_space s = true -> split_from s "" = []).
    { induction s as [| c' s' IH]; [reflexivity |].
      cbn [Spec.all_space split_from]. intros H.
      apply andb_prop in H. destruct H as [-> Hs]. now apply IH. }
    unfold split. rewrite (Hnil _ Hblank). cbn. eauto.
Qed.

(** *** The generators of the pipeline *)

Lemma analyze_with_llm_run w transactions s :
  DataCleaner.analyze_with_llm w transactions s =
  (Ret (analysis_text
          (http w DataCleaner.BIFROST_URL (DataCleaner.payload transactions) 60)),
   record (EvPost DataCleaner.BIFROST_URL (DataCleaner.payload transactions) 60
             (http w DataCleaner.BIFROST_URL (DataCleaner.payload transactions) 60))
          s).
Proof.
  unfold DataCleaner.analyze_with_llm, analysis_text,
    try_except, bind, post, lift, ret.
  destruct (http w _ _ _) as [response | e]; [| reflexivity].
  destruct (status_code response =? 200)%Z; [| reflexivity].
  destruct (DataCleaner.extract_content response); reflexivity.
Qed.

Lemma summarize_run w s :
  fst (DataCleaner.summarize w s) =
  Ret (let summary :=
         analysis_text (http w DataCleaner.BIFROST_URL
                          (DataCleaner.payload (mock_transactions w)) 60) in
       if contains "Error" summary
       then DataCleaner.canned_summary (mock_transactions w)
              (3 + Z.of_N (entropy w (draws s)) mod 6)
       else summary).
Proof.
  unfold DataCleaner.summarize, bind at 1, print at 1, ret at 1.
  unfold bind at 1. rewrite analyze_with_llm_run. cbv zeta.
  destruct (contains "Error" _); reflexivity.
Qed.

Lemma generate_compliance_report_run w clean_summary format_type s :
  Validator.generate_compliance_report w clean_summary format_type s =
  (Ret (report_text
          (http w Validator.BIFROST_URL (Validator.payload clean_summary) 180)),
   record (EvPost Validator.BIFROST_URL (Validator.payload clean_summary) 180
             (http w Validator.BIFROST_URL (Validator.payload clean_summary) 180))
          s).
Proof.
  unfold Validator.generate_compliance_report, report_text,
    try_except, bind, post, lift, print, ret.
  destruct (http w _ _ _) as [response | e]; [| reflexivity].
  destruct (status_code response =? 200)%Z; [| reflexivity].
  destruct (Validator.extract_content response); reflexivity.
Qed.

Lemma compile_report_run w clean_summary format_type s :
  fst (Validator.compile_report w clean_summary format_type s) =
  Ret (let report :=
         report_text (http w Validator.BIFROST_URL
                        (Validator.payload clean_summary) 180) in
       if Validator.looks_failed report
       then Validator.canned_report (clock w (clock_reads s)) format_type
                                    (clock w (S (clock_reads s)))
       else report).
Proof.
  unfold Validator.compile_report, bind at 1.
  rewrite generate_compliance_report_run. cbv zeta.
  destruct (Validator.looks_failed _); reflexivity.
Qed.



(** *** Rows and their JSON text *)

Lemma dict_set_fresh {V} (k : string) (v : V) (d : SqlGuardian.Dict V) :
  ~ In k (map fst d) -> SqlGuardian.dict_set k v d = (d ++ [(k, v)])%list.
Proof.
  induction d as [| [k' v'] d IH]; cbn [SqlGuardian.dict_set map fst In app];
    intros Hfresh; [reflexivity |].
  destruct (String.eqb_spec k' k) as [-> | _].
  - exfalso. apply Hfresh. now left.
  - rewrite IH; [reflexivity |]. intros Hin. apply Hfresh. now right.
Qed.

Lemma dict_of_distinct {V} (pairs acc : list (string * V)) :
  NoDup (map fst (acc ++ pairs)%list) ->
  fold_left (fun d kv => SqlGuardian.dict_set (fst kv) (snd kv) d) pairs acc
  = (acc ++ pairs)%list.
Proof.
  revert acc. induction pairs as [| [k v] pairs IH]; intros acc Hnodup;
    cbn [fold_left fst snd].
  - now rewrite app_nil_r.
  - rewrite dict_set_fresh.
    + rewrite IH; rewrite <- app_assoc; [reflexivity | exact Hnodup].
    + rewrite map_app in Hnodup. cbn [map fst] in Hnodup.
      apply NoDup_remove_2 in Hnodup.
      intros Hin. apply Hnodup. apply in_or_app. now left.
Qed.

Lemma combine_keys_distinct {V} (columns : list string) (row : list V) :
  NoDup columns -> NoDup (map fst (combine columns row)).
Proof.
  intros Hnodup. revert row.
  induction Hnodup as [| c columns Hfresh _ IH]; intros [| v row];
    cbn [combine map fst]; try constructor.
  - intros Hin. apply Hfresh.
    clear - Hin. revert row Hin.
    induction columns as [| c' columns IH]; intros [| v' row];
      cbn [combine map fst In]; try tauto.
    intros [-> | Hin]; [now left | right; eauto].
  - apply IH.
Qed.

(** With distinct column names a row mapping is the row, column by
    column, in the order of the columns. *)
Lemma row_mapping_distinct (columns : list string) (row : list SqlValue) :
  NoDup columns ->
  SqlGuardian.row_mapping columns row = combine columns row.
Proof.
  intros Hnodup. unfold SqlGuardian.row_mapping, SqlGuardian.dict_of.
  apply (dict_of_distinct (combine columns row) []).
  now apply combine_keys_distinct.
Qed.

Lemma map_res_cases {A B} (f : A -> Res B) (ok : A -> bool) (e0 : Exn)
      (l : list A) :
  (forall x, ok x = true -> exists y, f x = Ret y) ->
  (forall x, ok x = false -> f x = Raise e0) ->
  if forallb ok l
  then exists ys, SqlGuardian.map_res f l = Ret ys /\ length ys = length l
  else SqlGuardian.map_res f l = Raise e0.
Proof.
  intros Hok Hbad.
  induction l as [| x l IH]; cbn [forallb SqlGuardian.map_res].
  - now exists [].
  - destruct (ok x) eqn:Hx; cbn [andb].
    + destruct (Hok x Hx) as [y ->]. cbn [bind_res].
      destruct (forallb ok l).
      * destruct IH as (ys & -> & Hlen). exists (y :: ys).
        cbn. now rewrite Hlen.
      * now rewrite IH.
    + now rewrite (Hbad x Hx).
Qed.

Lemma json_row_cases (d : SqlGuardian.Dict SqlValue) :
  if Spec.serialisable d
  then exists text, SqlGuardian.json_row d = Ret text
  else SqlGuardian.json_row d = Raise SqlGuardian.bytes_error.
Proof.
  unfold Spec.serialisable.
  pose proof (map_res_cases SqlGuardian.json_entry
                (fun kv => negb (Spec.is_blob (snd kv)))
                SqlGuardian.bytes_error d) as H.
  destruct d as [| kv d]; [cbn; eauto |].
  unfold SqlGuardian.json_row.
  destruct (forallb _ (kv :: d)).
  - destruct H as (entries & -> & _); cbn [bind_res]; eauto.
    + intros [k v] Hv. unfold SqlGuardian.json_entry. cbn [snd fst] in *.
      destruct v; cbn; eauto. discriminate.
    + intros [k v] Hv. unfold SqlGuardian.json_entry. cbn [snd fst] in *.
      destruct v; cbn in *; try discriminate. reflexivity.
  - rewrite H; [reflexivity | |].
    + intros [k v] Hv. unfold SqlGuardian.json_entry. cbn [snd fst] in *.
      destruct v; cbn; eauto. discriminate.
    + intros [k v] Hv. unfold SqlGuardian.json_entry. cbn [snd fst] in *.
      destruct v; cbn in *; try discriminate. reflexivity.
Qed.

Lemma json_dumps_cases (ms : list (SqlGuardian.Dict SqlValue)) :
  if forallb Spec.serialisable ms
  then exists text, SqlGuardian.json_dumps ms = Ret text
  else SqlGuardian.json_dumps ms = Raise SqlGuardian.bytes_error.
Proof.
  pose proof (map_res_cases SqlGuardian.json_row Spec.serialisable
                SqlGuardian.bytes_error ms) as H.
  assert (Hok : forall d, Spec.serialisable d = true ->
                          exists text, SqlGuardian.json_row d = Ret text).
  { intros d Hd. pose proof (json_row_cases d) as Hrow.
    now rewrite Hd in Hrow. }
  assert (Hbad : forall d, Spec.serialisable d = false ->
                           SqlGuardian.json_row d = Raise SqlGuardian.bytes_error).
  { intros d Hd. pose proof (json_row_cases d) as Hrow.
    now rewrite Hd in Hrow. }
  specialize (H Hok Hbad).
  destruct ms as [| m ms]; [cbn; eauto |].
  unfold SqlGuardian.json_dumps.
  destruct (forallb Spec.serialisable (m :: ms)).
  - destruct H as (items & -> & _). cbn [bind_res]. eauto.
  - now rewrite H.
Qed.

(** With distinct column names, and as many values as columns, a row
    mapping holds a BLOB exactly when the row does. *)
Lemma serialisable_pairs (columns : list string) (row : list SqlValue) :
  length row = length columns ->
  Spec.serialisable (combine columns row) = negb (Spec.holds_blob row).
Proof.
  unfold Spec.serialisable, Spec.holds_blob.
  revert columns. induction row as [| v row IH]; intros [| c columns];
    cbn [length combine forallb existsb snd]; try discriminate;
    [reflexivity |].
  intros [= Hlen]. now rewrite (IH _ Hlen), negb_orb.
Qed.

Lemma serialisable_rows (columns : list string) (fetched : list (list SqlValue)) :
  NoDup columns ->
  (forall row, In row fetched -> length row = length columns) ->
  forallb Spec.serialisable (map (SqlGuardian.row_mapping columns) fetched)
  = negb (existsb Spec.holds_blob fetched).
Proof.
  intros Hnodup.
  induction fetched as [| row fetched IH]; intros Hwide;
    cbn [map forallb existsb]; [reflexivity |].
  rewrite (row_mapping_distinct _ _ Hnodup), serialisable_pairs,
    IH, negb_orb; auto using in_eq, in_cons.
Qed.

(** Whatever [json.dumps] returns for a list opens with a bracket. *)
Lemma json_dumps_opens_a_list ms text :
  SqlGuardian.json_dumps ms = Ret text ->
  exists rest, text = String "[" rest.
Proof.
  destruct ms as [| m ms]; cbn [SqlGuardian.json_dumps].
  - intros [= <-]. now exists "]".
  - destruct (SqlGuardian.map_res SqlGuardian.json_row (m :: ms));
      cbn [bind_res]; [| discriminate].
    intros [= <-]. eexists. reflexivity.
Qed.

End Steps.

(* ================================================================== *)
(** ** Properties of the gate *)
(* ================================================================== *)

Import Py Effects Gate.

(** C7.  [read_local_file] returns the whole content when the file can be
    read, and otherwise the text ["Error reading file: "] followed by the
    text of the error; in both cases it returns, it never raises. *)
Theorem read_local_file_returns (w : World) (filepath : string) (s : St) :
  fst (OpenClaw.read_local_file w filepath s) =
  Ret match file_system w filepath with
      | Ret content => content
      | Raise e => "Error reading file: " ++ exn_msg e
      end.
Proof.
  rewrite Steps.read_local_file_run. reflexivity.
Qed.

Lemma model_down_calls :
  calls (agent_run Scenario.model_down FileAgent "summarize report.csv") =
  [ bifrost_call Scenario.model_down "summarize report.csv";
    gateway_call Scenario.model_down "read file report.csv";
    EvOpenRead "report.csv" (Ret "id,amount") ].
Proof. vm_compute. reflexivity. Qed.

(** On the wire the file agent sends its action text behind the words
    ["read file "]: the prompt as a whole (["read file report.csv"]) is
    not the path that is opened (["report.csv"]), it is built from it. *)
Lemma file_agent_submits_a_prompt :
  ~ gated approves_same_text None
      (calls (agent_run Scenario.model_down FileAgent "summarize report.csv")).
Proof.
  rewrite model_down_calls. cbn [gated].
  intros (_ & _ & Hexec & _).
  destruct (Hexec eq_refl) as (g & Hg & _ & t & Hsubmitted & Hexecuted).
  injection Hg as <-.
  cbn in Hsubmitted, Hexecuted. congruence.
Qed.

(** C1.  In every run of either agent an execution step comes directly
    after a gateway call that returned status 200 for the request built
    from the very action text that is executed: for the file agent the
    path [filepath_to_read], which is what [read_local_file] is given and
    what the request carries behind the words ["read file "]; for the SQL
    agent the query, which the request carries as it is.  After a gateway
    call that did not return 200 nothing is executed. *)
Theorem execution_follows_allow (w : World) (a : Agent) (task : string) :
  gated approves_request None (calls (agent_run w a task))
  /\ gated approves_same_text None (calls (agent_run w SqlAgent task))
  /\ (forall g, In g (calls (agent_run w a task)) ->
                is_gateway_call g = true -> gateway_allows g = false ->
                no_execution (calls (agent_run w a task))).
Proof.
  split; [| split].
  - apply Steps.shape_gated, Steps.agent_run_shape.
  - unfold calls. cbn [agent_run].
    rewrite Steps.sql_agent_run. cbn [snd trace].
    destruct (generated_query _) as [sql_query |];
      [| cbn; intuition congruence].
    destruct (is_empty sql_query); [cbn; intuition congruence |].
    cbv zeta.
    destruct (gateway_allows (validation_call w sql_query)) eqn:Hallow;
      cbn [gated]; repeat split; try (cbn; congruence).
    intros _. exists (validation_call w sql_query).
    split; [reflexivity |]. split; [exact Hallow |].
    exists sql_query. split; reflexivity.
  - intros g Hin Hcall Hdeny.
    apply (Steps.shape_fail_closed _ g (Steps.agent_run_shape w a task));
      assumption.
Qed.

Lemma execution_follows_allow_witness :
  gated approves_request None
    (calls (agent_run Scenario.model_down FileAgent "summarize report.csv"))
  /\ no_execution
       (calls (agent_run Scenario.gateway_silent FileAgent
                         "summarize report.csv")).
Proof.
  split.
  - apply (execution_follows_allow Scenario.model_down FileAgent
             "summarize report.csv").
  - destruct (execution_follows_allow Scenario.gateway_silent FileAgent
                "summarize report.csv") as (_ & _ & Hdenied).
    apply (Hdenied (gateway_call Scenario.gateway_silent
                                 "read file report.csv")).
    + vm_compute. right. left. reflexivity.
    + reflexivity.
    + reflexivity.
Defined.

(** C2.  When the gateway call of a run did not come back with status 200
    (another status, whatever its body, or an exception of the transport
    or of the decoding), nothing is executed, the gateway call is the last
    call of the run, and the run returns as it does on a block. *)
Theorem not_allow_is_block (w : World) (a : Agent) (task : string) (g : Event) :
  In g (calls (agent_run w a task)) ->
  is_gateway_call g = true ->
  gateway_allows g = false ->
  no_execution (calls (agent_run w a task))
  /\ (exists before, calls (agent_run w a task) = (before ++ [g])%list)
  /\ result (agent_run w a task) = Ret tt.
Proof.
  intros Hin Hcall Hdeny.
  destruct (Steps.shape_fail_closed _ g (Steps.agent_run_shape w a task)
              Hin Hcall Hdeny) as [Hnone Hlast].
  repeat split; [exact Hnone | exact Hlast |].
  now apply (Steps.agent_returns_after_gateway w a task g).
Qed.

Lemma not_allow_is_block_witness :
  no_execution
    (calls (agent_run Scenario.gateway_silent FileAgent "summarize report.csv"))
  /\ (exists before,
        calls (agent_run Scenario.gateway_silent FileAgent "summarize report.csv")
        = (before ++ [gateway_call Scenario.gateway_silent "read file report.csv"])%list)
  /\ result (agent_run Scenario.gateway_silent FileAgent "summarize report.csv")
     = Ret tt.
Proof.
  apply (not_allow_is_block Scenario.gateway_silent FileAgent
           "summarize report.csv"
           (gateway_call Scenario.gateway_silent "read file report.csv")).
  - vm_compute. right. left. reflexivity.
  - reflexivity.
  - reflexivity.
Defined.

(** C3 fails on the code.  A response of status 500 that carries a content
    is a failure of the endpoint in the words of the claim (a non-success
    status), and for the task ["summarize report.csv"] the file agent
    takes the content, ["notes.txt"], as the action: lines 61-65 never
    look at [status_code], which the other agents test before they read
    the body, so no fallback is taken and the result is not
    ["report.csv"]. *)
Lemma status_alone_triggers_no_fallback :
  Spec.GenerationFails
    (http Scenario.model_500_with_content OpenClaw.BIFROST_URL
          (OpenClaw.payload "summarize report.csv") 30)
  /\ result (OpenClaw.propose_action Scenario.model_500_with_content
                                     "summarize report.csv")
     = Ret "notes.txt"
  /\ result (OpenClaw.propose_action Scenario.model_500_with_content
                                     "summarize report.csv")
     <> Ret "report.csv".
Proof.
  split; [| split].
  - apply Spec.fails_by_status. discriminate.
  - vm_compute. reflexivity.
  - vm_compute. discriminate.
Qed.

(** The fallback as the code takes it: when the call to the generation
    endpoint raises, or its response (of whatever status) has a body that
    does not decode or whose content field is missing or empty, the file
    agent parses the task, and for the task ["summarize report.csv"] the
    proposed action is exactly ["report.csv"]. *)
Lemma fallback_yields_report_csv (w : World) (s : St) :
  Spec.NothingUsable
    (http w OpenClaw.BIFROST_URL (OpenClaw.payload "summarize report.csv") 30) ->
  fst (OpenClaw.propose_action w "summarize report.csv" s) = Ret "report.csv".
Proof.
  intros Hnothing.
  rewrite Steps.propose_action_run. cbn [fst].
  rewrite (Steps.proposal_without_content _ _ Hnothing).
  vm_compute. reflexivity.
Qed.

Lemma fallback_yields_report_csv_witness :
  Spec.NothingUsable
    (http Scenario.model_down OpenClaw.BIFROST_URL
          (OpenClaw.payload "summarize report.csv") 30)
  /\ fst (OpenClaw.propose_action Scenario.model_down
                                  "summarize report.csv" start)
     = Ret "report.csv".
Proof.
  split.
  - apply Spec.nothing_arrived.
  - apply (fallback_yields_report_csv Scenario.model_down start).
    apply Spec.nothing_arrived.
Defined.

(** C4 fails on the code.  With the model out of reach and a task made of
    one space, the fallback evaluates [task.split()[-1]] on an empty list:
    the [IndexError] is raised inside the handler and leaves [run_agent]. *)
Theorem blank_task_raises :
  result (OpenClaw.propose_action Scenario.model_down " ")
  = Raise (mkExn IndexError "list index out of range")
  /\ result (OpenClaw.run_agent Scenario.model_down " ")
     = Raise (mkExn IndexError "list index out of range").
Proof.
  split; vm_compute; reflexivity.
Qed.

(** When the generation gives nothing usable, proposing an action raises on
    the blank tasks that are not empty and returns on every other task. *)
Lemma propose_action_raises_iff_blank (w : World) (task : string) (s : St) :
  Spec.NothingUsable
    (http w OpenClaw.BIFROST_URL (OpenClaw.payload task) 30) ->
  (exists e, fst (OpenClaw.propose_action w task s) = Raise e)
  <-> (task <> "" /\ Spec.all_space task = true).
Proof.
  intros Hnothing.
  rewrite Steps.propose_action_run. cbn [fst].
  rewrite (Steps.proposal_without_content _ _ Hnothing).
  apply Steps.fallback_parse_raises_iff.
Qed.

(* ================================================================== *)
(** ** Properties of the executor of queries *)
(* ================================================================== *)

(** C5, as stated, fails: a query that yields one row holding a BLOB comes
    back as the text of a database error, which is the JSON text of no
    sequence of rows at all. *)
Lemma blob_row_is_reported_as_error :
  database Scenario.store_with_blob SqlGuardian.DB_FILE
           "SELECT id, token FROM sessions"
  = Fetched (mkCursor (Some ["id"; "token"])
                      [[SqlInt 1; SqlBlob ["a"%char; "b"%char]]])
  /\ result (SqlGuardian.execute_query Scenario.store_with_blob
                                       "SELECT id, token FROM sessions")
     = Ret "Database Error: Object of type bytes is not JSON serializable"
  /\ forall mappings,
       SqlGuardian.json_dumps mappings
       <> Ret "Database Error: Object of type bytes is not JSON serializable".
Proof.
  split; [reflexivity | split; [vm_compute; reflexivity |]].
  intros mappings Hdumps.
  apply Steps.json_dumps_opens_a_list in Hdumps.
  destruct Hdumps as [rest Hrest]. discriminate.
Qed.

(** What is in a mapping is not always what is in the row: a BLOB under a
    column name that a later column repeats is replaced by the later
    value, and the row is serialised. *)
Example shadowed_blob_is_serialised :
  Spec.holds_blob [SqlBlob ["x"%char]; SqlInt 1] = true
  /\ SqlGuardian.format_rows
       (mkCursor (Some ["a"; "a"]) [[SqlBlob ["x"%char]; SqlInt 1]])
     = Ret (join_lines [ "[";
                         "  {";
                         "    " ++ dq ++ "a" ++ dq ++ ": 1";
                         "  }";
                         "]" ]).
Proof. split; vm_compute; reflexivity. Qed.

(** C5, amended.  For a query whose execution fetches N > 0 rows,
    [execute_query] builds N row mappings, the i-th from the i-th row
    ([dict(zip(columns, row))]), each equal to the pairs of column name
    and value in the order of the columns when the column names are
    distinct.  When none of these mappings holds a BLOB it returns the
    JSON text of their sequence; when one of them holds a BLOB it returns
    the text of a database error.  With distinct column names and rows as
    wide as the columns, a mapping holds a BLOB exactly when its row
    does.  For no rows it returns the "no data returned" sentence, which
    is not the text of an empty sequence. *)
Theorem execute_query_serialises_rows
        (w : World) (query : string) (cursor : Cursor) (s : St) :
  database w SqlGuardian.DB_FILE query = Fetched cursor ->
  let columns := match description cursor with
                 | Some names => names
                 | None => []
                 end in
  let mappings := map (SqlGuardian.row_mapping columns) (rows cursor) in
  (rows cursor = [] ->
   fst (SqlGuardian.execute_query w query s) = Ret SqlGuardian.no_data
   /\ SqlGuardian.json_dumps [] <> Ret SqlGuardian.no_data)
  /\ (rows cursor <> [] -> forallb Spec.serialisable mappings = true ->
      exists text,
        SqlGuardian.json_dumps mappings = Ret text
        /\ fst (SqlGuardian.execute_query w query s) = Ret text)
  /\ (rows cursor <> [] -> forallb Spec.serialisable mappings = false ->
      fst (SqlGuardian.execute_query w query s)
      = Ret ("Database Error: " ++ exn_msg SqlGuardian.bytes_error))
  /\ length mappings = length (rows cursor)
  /\ (forall i row, nth_error (rows cursor) i = Some row ->
        nth_error mappings i = Some (SqlGuardian.row_mapping columns row))
  /\ (forall row, NoDup columns ->
        SqlGuardian.row_mapping columns row = combine columns row)
  /\ (NoDup columns ->
      (forall row, In row (rows cursor) -> length row = length columns) ->
      forallb Spec.serialisable mappings
      = negb (existsb Spec.holds_blob (rows cursor))).
Proof.
  intros Hfetched columns mappings.
  assert (Hrun : fst (SqlGuardian.execute_query w query s) =
                 match SqlGuardian.format_rows cursor with
                 | Ret out => Ret out
                 | Raise e => Ret ("Database Error: " ++ exn_msg e)
                 end).
  { unfold SqlGuardian.execute_query, bind, sqlite, try_except, lift.
    rewrite Hfetched.
    destruct (SqlGuardian.format_rows cursor); reflexivity. }
  assert (Hformat : rows cursor <> [] ->
                    SqlGuardian.format_rows cursor
                    = SqlGuardian.json_dumps mappings).
  { intros Hrows. unfold SqlGuardian.format_rows. subst mappings columns.
    destruct (rows cursor); [congruence | reflexivity]. }
  pose proof (Steps.json_dumps_cases mappings) as Hdumps.
  split; [| split; [| split; [| split; [| split; [| split]]]]].
  - intros Hrows. split; [| discriminate].
    rewrite Hrun. unfold SqlGuardian.format_rows. now rewrite Hrows.
  - intros Hrows Hall. rewrite Hall in Hdumps. destruct Hdumps as [text Htext].
    exists text. split; [exact Htext |].
    now rewrite Hrun, (Hformat Hrows), Htext.
  - intros Hrows Hsome. rewrite Hsome in Hdumps.
    now rewrite Hrun, (Hformat Hrows), Hdumps.
  - apply length_map.
  - intros i row Hrow. subst mappings.
    now rewrite nth_error_map, Hrow.
  - intros row Hnodup. now apply Steps.row_mapping_distinct.
  - intros Hnodup Hwide. now apply Steps.serialisable_rows.
Qed.

Lemma execute_query_serialises_rows_witness :
  (exists text,
      SqlGuardian.json_dumps
        (map (SqlGuardian.row_mapping ["id"; "user_id"; "product"; "amount"])
             (rows Scenario.orders)) = Ret text
      /\ fst (SqlGuardian.execute_query Scenario.orders_world
                                        Scenario.orders_query start)
         = Ret text)
  /\ fst (SqlGuardian.execute_query Scenario.store_with_blob
                                    "SELECT id, token FROM sessions" start)
     = Ret "Database Error: Object of type bytes is not JSON serializable"
  /\ SqlGuardian.row_mapping ["id"; "token"] [SqlInt 1; SqlText "t"]
     = [("id", SqlInt 1); ("token", SqlText "t")].
Proof.
  destruct (execute_query_serialises_rows Scenario.orders_world
              Scenario.orders_query Scenario.orders start eq_refl)
    as (_ & Hrows & _).
  destruct (execute_query_serialises_rows Scenario.store_with_blob
              "SELECT id, token FROM sessions"
              (mkCursor (Some ["id"; "token"])
                        [[SqlInt 1; SqlBlob ["a"%char; "b"%char]]])
              start eq_refl)
    as (_ & _ & Hblob & _ & _ & Hdistinct & _).
  split; [| split].
  - apply Hrows; [discriminate | reflexivity].
  - apply Hblob; [discriminate | reflexivity].
  - apply Hdistinct. cbn.
    repeat constructor; cbn; intuition discriminate.
Defined.

(** The run of the SQL agent on the mock orders: the query the gateway
    allowed, without its fence, is the one the store is asked. *)
Example sql_agent_on_orders :
  calls (agent_run Scenario.orders_world SqlAgent "Fetch all orders for user_id 1.")
  = [ sql_bifrost_call Scenario.orders_world "Fetch all orders for user_id 1.";
      validation_call Scenario.orders_world Scenario.orders_query;
      EvSqlite SqlGuardian.DB_FILE Scenario.orders_query
               (Fetched Scenario.orders) ]
  /\ result (SqlGuardian.execute_query Scenario.orders_world Scenario.orders_query)
     = Ret (join_lines
              [ "[";
                "  {";
                "    " ++ dq ++ "id" ++ dq ++ ": 1,";
                "    " ++ dq ++ "user_id" ++ dq ++ ": 1,";
                "    " ++ dq ++ "product" ++ dq ++ ": " ++ dq ++ "Laptop" ++ dq ++ ",";
                "    " ++ dq ++ "amount" ++ dq ++ ": 1200.0";
                "  },";
                "  {";
                "    " ++ dq ++ "id" ++ dq ++ ": 2,";
                "    " ++ dq ++ "user_id" ++ dq ++ ": 1,";
                "    " ++ dq ++ "product" ++ dq ++ ": " ++ dq ++ "Mouse" ++ dq ++ ",";
                "    " ++ dq ++ "amount" ++ dq ++ ": 25.0";
                "  },";
                "  {";
                "    " ++ dq ++ "id" ++ dq ++ ": 3,";
                "    " ++ dq ++ "user_id" ++ dq ++ ": 1,";
                "    " ++ dq ++ "product" ++ dq ++ ": " ++ dq ++ "Keyboard" ++ dq ++ ",";
                "    " ++ dq ++ "amount" ++ dq ++ ": 75.0";
                "  }";
                "]" ]).
Proof. split; vm_compute; reflexivity. Qed.

(* ================================================================== *)
(** ** Properties of the relay *)
(* ================================================================== *)


(** The router's [message] is read with a subscript: a success response
    without it ends in the error result. *)
Lemma relay_without_message_is_an_error :
  result (DataCleaner.forward Scenario.router_without_message
                              "Three large transfers flagged.")
  = Ret (PDict [ ("status", PStr "error"); ("reason", PStr "'message'") ]).
Proof. vm_compute. reflexivity. Qed.



(* ================================================================== *)
(** ** Properties of the fallbacks *)
(* ================================================================== *)

(** C8 fails on the code.  With the model out of reach the validator
    returns its canned report under status "success", and the report says
    nowhere that it does not come from the model; the canned summary of
    the data cleaner, in the same situation, says so. *)
Theorem canned_report_is_unmarked :
  result (Validator.run_agent Scenario.model_down None "detailed")
  = Ret (PDict [ ("status", PStr "success");
                 ("report",
                  PStr (Validator.canned_report Scenario.morning "detailed"
                                                Scenario.morning)) ])
  /\ Spec.marked_degraded
       (Validator.canned_report Scenario.morning "detailed" Scenario.morning)
     = false
  /\ forall transactions flagged,
       Spec.marked_degraded (DataCleaner.canned_summary transactions flagged)
       = true.
Proof.
  split; [| split].
  - vm_compute. reflexivity.
  - vm_compute. reflexivity.
  - intros transactions flagged. vm_compute. reflexivity.
Qed.

(** C9, as stated, fails: with the model out of reach in the same way and
    the same transactions at hand, the canned summary differs with the
    draw of [random.randint(3, 8)], and the canned report with the
    clock. *)
Lemma canned_outputs_vary :
  http Scenario.model_down_redrawn = http Scenario.model_down
  /\ mock_transactions Scenario.model_down_redrawn
     = mock_transactions Scenario.model_down
  /\ result (DataCleaner.summarize Scenario.model_down)
     <> result (DataCleaner.summarize Scenario.model_down_redrawn)
  /\ http Scenario.model_down_later = http Scenario.model_down
  /\ result (Validator.compile_report Scenario.model_down
               Validator.SAMPLE_CLEAN_SUMMARY "detailed")
     <> result (Validator.compile_report Scenario.model_down_later
                  Validator.SAMPLE_CLEAN_SUMMARY "detailed").
Proof.
  repeat split; try reflexivity; vm_compute; discriminate.
Qed.

(** C9, amended.  The fallback of the file agent is deterministic: when
    the generation gives nothing usable, the proposed action is a function
    of the task alone, whatever the world and the state of the run.  The
    canned summary of the data cleaner is a function of the transactions
    and of one draw of [random.randint(3, 8)], and the canned report of the
    validator a function of the format type and of two readings of the
    clock. *)
Theorem fallbacks_and_their_inputs :
  (forall w1 w2 task s1 s2,
      Spec.NothingUsable
        (http w1 OpenClaw.BIFROST_URL (OpenClaw.payload task) 30) ->
      Spec.NothingUsable
        (http w2 OpenClaw.BIFROST_URL (OpenClaw.payload task) 30) ->
      fst (OpenClaw.propose_action w1 task s1)
      = fst (OpenClaw.propose_action w2 task s2))
  /\ (forall w s,
        contains "Error"
          (analysis_text (http w DataCleaner.BIFROST_URL
                            (DataCleaner.payload (mock_transactions w)) 60))
        = true ->
        fst (DataCleaner.summarize w s)
        = Ret (DataCleaner.canned_summary (mock_transactions w)
                 (3 + Z.of_N (entropy w (draws s)) mod 6)))
  /\ (forall w clean_summary format_type s,
        Validator.looks_failed
          (report_text (http w Validator.BIFROST_URL
                          (Validator.payload clean_summary) 180))
        = true ->
        fst (Validator.compile_report w clean_summary format_type s)
        = Ret (Validator.canned_report (clock w (clock_reads s)) format_type
                                       (clock w (S (clock_reads s))))).
Proof.
  split; [| split].
  - intros w1 w2 task s1 s2 H1 H2.
    rewrite !Steps.propose_action_run. cbn [fst].
    now rewrite (Steps.proposal_without_content _ _ H1),
                (Steps.proposal_without_content _ _ H2).
  - intros w s Hfailed. rewrite Steps.summarize_run. cbv zeta.
    now rewrite Hfailed.
  - intros w clean_summary format_type s Hfailed.
    rewrite Steps.compile_report_run. cbv zeta. now rewrite Hfailed.
Qed.

Lemma fallbacks_and_their_inputs_witness :
  fst (OpenClaw.propose_action Scenario.model_down "summarize report.csv" start)
  = fst (OpenClaw.propose_action Scenario.gateway_silent
                                 "summarize report.csv" (mkSt [] 3 4))
  /\ fst (DataCleaner.summarize Scenario.model_down_redrawn start)
     = Ret (DataCleaner.canned_summary
              (mock_transactions Scenario.model_down_redrawn) 4)
  /\ fst (Validator.compile_report Scenario.model_down_later
            Validator.SAMPLE_CLEAN_SUMMARY "detailed" start)
     = Ret (Validator.canned_report (mkDateTime 2024 1 15 9 23 46) "detailed"
                                    (mkDateTime 2024 1 15 9 23 46)).
Proof.
  destruct fallbacks_and_their_inputs as (Hfile & Hcleaner & Hvalidator).
  split; [| split].
  - apply Hfile; apply Spec.nothing_arrived.
  - apply (Hcleaner Scenario.model_down_redrawn start). reflexivity.
  - apply (Hvalidator Scenario.model_down_later
             Validator.SAMPLE_CLEAN_SUMMARY "detailed" start).
    reflexivity.
Defined.



(* ================================================================== *)
(** ** Further properties: text *)
(* ================================================================== *)

Module TextFacts.
Import Text.

Lemma append_assoc (a b c : string) : (a ++ b) ++ c = a ++ (b ++ c).
Proof. induction a as [| x a IH]; cbn; [reflexivity | now rewrite IH]. Qed.

Lemma append_nil_r (a : string) : a ++ "" = a.
Proof. induction a as [| x a IH]; cbn; [reflexivity | now rewrite IH]. Qed.

Lemma length_app (a b : string) :
  String.length (a ++ b) = String.length a + String.length b.
Proof. induction a as [| x a IH]; cbn; [reflexivity | now rewrite IH]. Qed.

Lemma lstrip_first s : first_is_space (lstrip s) = false.
Proof.
  induction s as [| c s IH]; cbn; [reflexivity |].
  destruct (is_space c) eqn:Hc; [exact IH | cbn; exact Hc].
Qed.

Lemma rstrip_last s : last_is_space (rstrip s) = false.
Proof.
  induction s as [| c s IH]; cbn [rstrip]; [reflexivity |].
  destruct (rstrip s) as [| d r] eqn:Hr; cbn [is_empty andb].
  - destruct (is_space c) eqn:Hc; cbn; [reflexivity | exact Hc].
  - cbn [last_is_space]. exact IH.
Qed.

Lemma rstrip_first s :
  first_is_space s = false -> first_is_space (rstrip s) = false.
Proof.
  destruct s as [| c s]; cbn [first_is_space rstrip]; [reflexivity |].
  intros Hc. rewrite Hc, andb_false_r. cbn. exact Hc.
Qed.

Lemma strip_trimmed s :
  first_is_space (strip s) = false /\ last_is_space (strip s) = false.
Proof.
  unfold strip. split.
  - apply rstrip_first, lstrip_first.
  - apply rstrip_last.
Qed.

Lemma lstrip_fixed s : first_is_space s = false -> lstrip s = s.
Proof.
  destruct s as [| c s]; cbn; [reflexivity |]. now intros ->.
Qed.

Lemma rstrip_fixed s : last_is_space s = false -> rstrip s = s.
Proof.
  induction s as [| c s IH]; cbn [rstrip last_is_space]; [reflexivity |].
  destruct s as [| d s'].
  - cbn. now intros ->.
  - intros H. rewrite (IH H). reflexivity.
Qed.

(** Stripping what is stripped changes nothing. *)
Lemma strip_strip s : strip (strip s) = strip s.
Proof.
  destruct (strip_trimmed s) as [Hfirst Hlast].
  unfold strip at 1. now rewrite (lstrip_fixed _ Hfirst), (rstrip_fixed _ Hlast).
Qed.

Lemma lstrip_suffix s : exists before, s = before ++ lstrip s.
Proof.
  induction s as [| c s [before IH]]; cbn [lstrip]; [now exists "" |].
  destruct (is_space c).
  - exists (String c before). cbn. now rewrite <- IH.
  - now exists "".
Qed.

Lemma rstrip_prefix s : exists after, s = rstrip s ++ after.
Proof.
  induction s as [| c s [after IH]]; cbn [rstrip]; [now exists "" |].
  destruct (is_empty (rstrip s) && is_space c)%bool eqn:Hcut.
  - now exists (String c s).
  - exists after. cbn. now rewrite <- IH.
Qed.

Lemma occurs_refl s : occurs_in s s.
Proof. exists "", "". cbn. now rewrite append_nil_r. Qed.

Lemma occurs_trans a b c : occurs_in a b -> occurs_in b c -> occurs_in a c.
Proof.
  intros (p1 & q1 & ->) (p2 & q2 & ->).
  exists (p2 ++ p1), (q1 ++ q2). now rewrite !append_assoc.
Qed.

Lemma strip_occurs s : occurs_in (strip s) s.
Proof.
  unfold strip.
  destruct (lstrip_suffix s) as [before Hs].
  destruct (rstrip_prefix (lstrip s)) as [after Hl].
  exists before, after. now rewrite <- Hl.
Qed.

Lemma has_space_app a b : has_space (a ++ b) = (has_space a || has_space b)%bool.
Proof.
  induction a as [| c a IH]; cbn; [reflexivity |].
  now rewrite IH, orb_assoc.
Qed.

Lemma contains_tail needle c hay :
  contains needle hay = true -> contains needle (String c hay) = true.
Proof.
  intros H. cbn [contains]. rewrite H. apply orb_true_r.
Qed.

Lemma prefix_app needle a b :
  prefix needle a = true -> prefix needle (a ++ b) = true.
Proof.
  revert a. induction needle as [| x needle IH]; intros a;
    [intros _; destruct (a ++ b); reflexivity |].
  destruct a as [| y a]; cbn; [discriminate |].
  destruct (ascii_dec x y); [apply IH | discriminate].
Qed.

Lemma contains_app_l needle a b :
  contains needle a = true -> contains needle (a ++ b) = true.
Proof.
  induction a as [| y a IH]; cbn [contains append].
  - rewrite orb_false_r. intros H. destruct needle; [| discriminate].
    destruct b; reflexivity.
  - intros H. apply orb_true_iff in H. apply orb_true_iff.
    destruct H as [H | H].
    + left. exact (prefix_app needle (String y a) b H).
    + right. now apply IH.
Qed.

Lemma contains_app_r needle a b :
  contains needle b = true -> contains needle (a ++ b) = true.
Proof.
  induction a as [| y a IH]; cbn [append]; [trivial |].
  intros H. apply contains_tail. now apply IH.
Qed.

(** What lacks a needle has no part that holds it. *)
Lemma contains_occurs needle part whole :
  occurs_in part whole -> contains needle part = true ->
  contains needle whole = true.
Proof.
  intros (before & after & ->) H.
  apply contains_app_r, contains_app_l, H.
Qed.

End TextFacts.

(* ================================================================== *)
(** ** Further properties: the file agent *)
(* ================================================================== *)

Module FileFacts.
Import Text TextFacts.

Lemma all_chars_app p a b :
  all_chars p (a ++ b) = (all_chars p a && all_chars p b)%bool.
Proof.
  induction a as [| c a IH]; cbn; [reflexivity |].
  now rewrite IH, andb_assoc.
Qed.

Lemma all_chars_weaken (p q : ascii -> bool) s :
  (forall c, p c = true -> q c = true) ->
  all_chars p s = true -> all_chars q s = true.
Proof.
  intros Hpq. induction s as [| c s IH]; cbn; [reflexivity |].
  intros H. apply andb_prop in H. destruct H as [Hc Hs].
  now rewrite (Hpq c Hc), IH.
Qed.

Lemma substring_app a rest :
  substring 0 (String.length a) (a ++ rest) = a.
Proof.
  induction a as [| c a IH]; cbn.
  - destruct rest; reflexivity.
  - now rewrite IH.
Qed.

(** What a pattern matches at the head of a text is made of characters of
    its alphabet, and the continuation is run on what follows. *)
Lemma plus_then_sound cls s k n :
  Regex.plus_then cls s k = Some n ->
  exists a rest n',
    s = a ++ rest /\ all_chars cls a = true /\ k rest = Some n'
    /\ n = String.length a + n'.
Proof.
  revert n. induction s as [| c s IH]; intros n; cbn [Regex.plus_then];
    [discriminate |].
  destruct (cls c) eqn:Hc; [| discriminate].
  destruct (Regex.plus_then cls s k) as [m |] eqn:Hlonger.
  - intros [= <-].
    destruct (IH m eq_refl) as (a & rest & n' & -> & Ha & Hk & ->).
    exists (String c a), rest, n'. cbn. now rewrite Hc, Ha.
  - destruct (k s) as [n' |] eqn:Hk; cbn; [| discriminate].
    intros [= <-]. exists (String c ""), s, n'. cbn. now rewrite Hc.
Qed.

Lemma match_then_sound r : forall s k n,
  Regex.match_then r s k = Some n ->
  exists a rest n',
    s = a ++ rest /\ all_chars (alphabet r) a = true /\ k rest = Some n'
    /\ n = String.length a + n'.
Proof.
  induction r as [x | cls | r1 IH1 r2 IH2]; intros s k n; cbn [Regex.match_then].
  - destruct s as [| c s]; [discriminate |].
    destruct (Ascii.eqb c x) eqn:Hc; [| discriminate].
    destruct (k s) as [n' |] eqn:Hk; cbn; [| discriminate].
    intros [= <-]. exists (String c ""), s, n'. cbn. now rewrite Hc.
  - apply plus_then_sound.
  - intros H.
    destruct (IH1 _ _ _ H) as (a1 & rest1 & n1 & -> & Ha1 & H2 & ->).
    destruct (IH2 _ _ _ H2) as (a2 & rest2 & n2 & -> & Ha2 & Hk & ->).
    exists (a1 ++ a2), rest2, n2. repeat split.
    + now rewrite append_assoc.
    + rewrite all_chars_app. apply andb_true_intro. split.
      * eapply all_chars_weaken; [| exact Ha1].
        intros c Hc. cbn. now rewrite Hc.
      * eapply all_chars_weaken; [| exact Ha2].
        intros c Hc. cbn. rewrite Hc. apply orb_true_r.
    + exact Hk.
    + rewrite length_app. lia.
Qed.

Lemma search_sound r s : forall found,
  Regex.search r s = Some found ->
  occurs_in found s /\ all_chars (alphabet r) found = true.
Proof.
  induction s as [| c s IH]; intros found; cbn [Regex.search].
  - destruct (Regex.match_then r "" _) as [n |] eqn:Hm; [| discriminate].
    destruct (match_then_sound _ _ _ _ Hm)
      as (a & rest & n' & Hs & Ha & Hk & Hn).
    destruct a; [| discriminate]. injection Hk as <-. cbn in Hn. subst n.
    intros [= <-]. split; [apply occurs_refl | reflexivity].
  - destruct (Regex.match_then r (String c s) _) as [n |] eqn:Hm.
    + destruct (match_then_sound _ _ _ _ Hm)
        as (a & rest & n' & Hs & Ha & Hk & Hn).
      injection Hk as <-. rewrite Nat.add_0_r in Hn. subst n.
      rewrite Hs, substring_app. intros Hfound. injection Hfound as <-.
      split; [now exists "", rest | exact Ha].
    + intros H. destruct (IH _ H) as [(before & after & ->) Ha].
      split; [| exact Ha]. now exists (String c before), after.
Qed.

Lemma pattern_has_no_space c :
  alphabet OpenClaw.filename_pattern c = true -> is_space c = false.
Proof.
  destruct c as [[] [] [] [] [] [] [] []]; vm_compute; congruence.
Qed.

Lemma all_chars_no_space p s :
  (forall c, p c = true -> is_space c = false) ->
  all_chars p s = true -> has_space s = false.
Proof.
  intros Hp. induction s as [| c s IH]; cbn; [reflexivity |].
  intros H. apply andb_prop in H. destruct H as [Hc Hs].
  now rewrite (Hp c Hc), IH.
Qed.

Lemma split_from_tokens s : forall cur tok,
  In tok (split_from s cur) -> has_space cur = false ->
  has_space tok = false /\ occurs_in tok (cur ++ s).
Proof.
  induction s as [| c s IH]; intros cur tok; cbn [split_from].
  - destruct (is_empty cur); [intros [] |].
    intros [<- | []] Hcur. split; [exact Hcur |].
    rewrite append_nil_r. apply occurs_refl.
  - destruct (is_space c) eqn:Hc.
    + assert (Hrest : In tok (split_from s "") ->
                      has_space tok = false /\ occurs_in tok (cur ++ String c s)).
      { intros Hin. destruct (IH "" tok Hin eq_refl) as [Htok (before & after & Hs)].
        split; [exact Htok |]. cbn in Hs.
        exists (cur ++ String c before), after.
        rewrite append_assoc. cbn. now rewrite Hs. }
      destruct (is_empty cur); [intros Hin _; now apply Hrest |].
      intros [<- | Hin] Hcur; [| now apply Hrest].
      split; [exact Hcur |]. now exists "", (String c s).
    + intros Hin Hcur.
      destruct (IH (cur ++ String c "") tok Hin) as [Htok Hocc].
      * rewrite has_space_app, Hcur. cbn. now rewrite Hc.
      * split; [exact Htok |]. now rewrite append_assoc in Hocc.
Qed.

Lemma last_in {A} (l : list A) (d : A) : In (last l d) (d :: l).
Proof.
  induction l as [| z l IH]; [now left |].
  destruct l as [| z2 l']; [right; now left |].
  change (last (z :: z2 :: l') d) with (last (z2 :: l') d).
  destruct IH as [H | H]; [left; exact H | right; right; exact H].
Qed.

Lemma last_item_in l x : OpenClaw.last_item l = Ret x -> In x l.
Proof.
  destruct l as [| y l]; cbn [OpenClaw.last_item]; [discriminate |].
  intros [= <-]. apply last_in.
Qed.

End FileFacts.

(** X1.  When the generation gives nothing usable and the task is a
    non-empty text of whitespace, the run of the file agent ends in the
    [IndexError] of the fallback, whatever the world: the request to the
    model is its only call, the gateway is not asked and no file is
    opened. *)
Theorem blank_task_stops_the_file_agent (w : World) (task : string) :
  Spec.NothingUsable
    (http w OpenClaw.BIFROST_URL (OpenClaw.payload task) 30) ->
  task <> "" -> Spec.all_space task = true ->
  result (OpenClaw.run_agent w task)
  = Raise (mkExn IndexError "list index out of range")
  /\ calls (OpenClaw.run_agent w task) = [bifrost_call w task].
Proof.
  intros Hnothing Hfull Hblank.
  assert (Hparse : OpenClaw.fallback_parse task
                   = Raise (mkExn IndexError "list index out of range")).
  { unfold OpenClaw.fallback_parse.
    rewrite (Steps.search_blank task Hblank).
    destruct task as [| c task]; [congruence |]. cbn [is_empty].
    destruct (split (String c task)) as [| token tokens] eqn:Hsplit;
      [reflexivity |].
    exfalso.
    destruct (proj2 (Steps.fallback_parse_raises_iff (String c task))
                    (conj Hfull Hblank)) as [e He].
    unfold OpenClaw.fallback_parse in He.
    rewrite (Steps.search_blank _ Hblank) in He. cbn [is_empty] in He.
    rewrite Hsplit in He. discriminate. }
  unfold result, calls. rewrite Steps.file_agent_run.
  rewrite (Steps.proposal_without_content _ _ Hnothing), Hparse.
  split; reflexivity.
Qed.

Lemma blank_task_stops_the_file_agent_witness :
  result (OpenClaw.run_agent Scenario.gateway_silent "  ")
  = Raise (mkExn IndexError "list index out of range")
  /\ calls (OpenClaw.run_agent Scenario.gateway_silent "  ")
     = [bifrost_call Scenario.gateway_silent "  "].
Proof.
  apply (blank_task_stops_the_file_agent Scenario.gateway_silent "  ").
  - apply Spec.nothing_arrived.
  - discriminate.
  - reflexivity.
Defined.

(** X2.  What the fallback proposes is a piece of the task as it was
    written, and it holds no whitespace: the fallback never makes up a
    path, and never proposes one with a blank in it. *)
Theorem fallback_proposes_a_piece_of_the_task (task action : string) :
  OpenClaw.fallback_parse task = Ret action ->
  Text.occurs_in action task /\ Text.has_space action = false.
Proof.
  unfold OpenClaw.fallback_parse.
  destruct (Regex.search OpenClaw.filename_pattern task) as [found |] eqn:Hsearch.
  - intros [= <-].
    destruct (FileFacts.search_sound _ _ _ Hsearch) as [Hocc Hchars].
    split; [exact Hocc |].
    eapply FileFacts.all_chars_no_space; [| exact Hchars].
    apply FileFacts.pattern_has_no_space.
  - destruct (is_empty task) eqn:Hempty.
    + intros [= <-]. split; [| reflexivity]. exists "", task. reflexivity.
    + intros Hlast. apply FileFacts.last_item_in in Hlast.
      destruct (FileFacts.split_from_tokens task "" action Hlast eq_refl)
        as [Hspace Hocc].
      split; [exact Hocc | exact Hspace].
Qed.

Lemma fallback_proposes_a_piece_of_the_task_witness :
  Text.occurs_in "world" "hello world "
  /\ Text.has_space "world" = false.
Proof.
  apply (fallback_proposes_a_piece_of_the_task "hello world " "world").
  vm_compute. reflexivity.
Defined.

(** X3.  When the body of the generation response carries a content that
    is not blank, the file agent proposes that content, stripped, whatever
    the status code of the response; the action neither starts nor ends
    with whitespace. *)
Theorem model_action_is_trimmed
        (w : World) (task : string) (s : St)
        (response : Response) (body : PyVal) (content : string) :
  http w OpenClaw.BIFROST_URL (OpenClaw.payload task) 30 = Ret response ->
  json response = Ret body ->
  Spec.content_field body = Some content ->
  strip content <> "" ->
  fst (OpenClaw.propose_action w task s) = Ret (strip content)
  /\ Text.first_is_space (strip content) = false
  /\ Text.last_is_space (strip content) = false.
Proof.
  intros Hpost Hjson Hfield Hcontent.
  split; [| apply TextFacts.strip_trimmed].
  rewrite Steps.propose_action_run, Hpost. cbn [fst proposal].
  pose proof (Steps.extract_action_usable response) as Hextract.
  unfold Spec.usable_content in Hextract. rewrite Hjson, Hfield in Hextract.
  destruct (strip content) eqn:Hstrip; [congruence |].
  cbn [is_empty] in Hextract. now rewrite Hextract.
Qed.

Lemma model_action_is_trimmed_witness :
  fst (OpenClaw.propose_action Cases.model_pads "summarize the report" start)
  = Ret "report.csv".
Proof.
  apply (model_action_is_trimmed Cases.model_pads "summarize the report" start
           (mkResponse 200 "" (Ret (Scenario.completion "  report.csv  ")))
           (Scenario.completion "  report.csv  ") "  report.csv  ");
    try reflexivity.
  vm_compute. discriminate.
Defined.

(** X4.  When the proposed action contains "I can only read", the run ends
    there: the gateway is not asked and no file is opened. *)
Theorem refusal_ends_the_run (w : World) (task action : string) :
  fst (OpenClaw.propose_action w task start) = Ret action ->
  contains "I can only read" action = true ->
  calls (OpenClaw.run_agent w task) = [bifrost_call w task]
  /\ result (OpenClaw.run_agent w task) = Ret tt.
Proof.
  rewrite Steps.propose_action_run. cbn [fst]. intros Hproposal Hrefusal.
  unfold calls, result. rewrite Steps.file_agent_run, Hproposal, Hrefusal.
  split; reflexivity.
Qed.

Lemma refusal_ends_the_run_witness :
  calls (OpenClaw.run_agent Cases.model_declines "What is the weather?")
  = [bifrost_call Cases.model_declines "What is the weather?"]
  /\ result (OpenClaw.run_agent Cases.model_declines "What is the weather?")
     = Ret tt.
Proof.
  apply (refusal_ends_the_run Cases.model_declines "What is the weather?"
           "I can only read files."); reflexivity.
Defined.

(** X5.  Whenever [ask_gateway] returns, it has made one POST to the
    validation endpoint, with the prompt as it was given and a timeout of
    60, and its answer is [True] exactly when that call came back with
    status 200: any other status gives [False] even when the body does
    not decode or is no object, and so does any exception of the call. *)
Theorem ask_gateway_answers_by_status
        (w : World) (prompt : string) (s s' : St) (answer : bool) :
  OpenClaw.ask_gateway w prompt s = (Ret answer, s') ->
  answer = allowed (http w OpenClaw.GATEWAY_URL
                         (PDict [("prompt", PStr prompt)]) 60)
  /\ trace s'
     = (trace s
        ++ [EvPost OpenClaw.GATEWAY_URL (PDict [("prompt", PStr prompt)]) 60
              (http w OpenClaw.GATEWAY_URL
                    (PDict [("prompt", PStr prompt)]) 60)])%list.
Proof.
  rewrite Steps.ask_gateway_run. intros [= <- <-]. split; reflexivity.
Qed.

Lemma ask_gateway_answers_by_status_witness :
  false = allowed (http Cases.gateway_denies_badly OpenClaw.GATEWAY_URL
                        (PDict [("prompt", PStr "read file report.csv")]) 60)
  /\ trace (record (gateway_call Cases.gateway_denies_badly
                                 "read file report.csv") start)
     = (trace start
        ++ [EvPost OpenClaw.GATEWAY_URL
              (PDict [("prompt", PStr "read file report.csv")]) 60
              (http Cases.gateway_denies_badly OpenClaw.GATEWAY_URL
                    (PDict [("prompt", PStr "read file report.csv")]) 60)])%list.
Proof.
  apply (ask_gateway_answers_by_status Cases.gateway_denies_badly
           "read file report.csv" start).
  reflexivity.
Defined.

(* ================================================================== *)
(** ** Further properties: the SQL agent *)
(* ================================================================== *)

Module SqlFacts.
Import Text TextFacts.

Lemma prefix_split a : forall s,
  prefix a s = true -> exists t, s = a ++ t.
Proof.
  induction a as [| x a IH]; intros s H; [now exists s |].
  destruct s as [| y s]; [discriminate |]. cbn in H.
  destruct (ascii_dec x y) as [-> |]; [| discriminate].
  destruct (IH s H) as [t ->]. now exists t.
Qed.

Lemma prefix_app_same a t : prefix a (a ++ t) = true.
Proof.
  induction a as [| x a IH]; cbn; [destruct t; reflexivity |].
  destruct (ascii_dec x x); [exact IH | congruence].
Qed.

Lemma fenceless_head s :
  prefix "`" (replace_from "```" "" s 0) = true -> prefix "`" s = true.
Proof.
  destruct s as [| c s]; [trivial |].
  cbn [replace_from].
  destruct (prefix "```" (String c s)) eqn:Hfence.
  - intros _. apply prefix_split in Hfence. destruct Hfence as [t ->].
    reflexivity.
  - intros H. apply prefix_split in H. destruct H as [t H].
    injection H as -> _. apply (prefix_app_same "`" s).
Qed.

Lemma fenceless_head2 s :
  prefix "``" (replace_from "```" "" s 0) = true -> prefix "``" s = true.
Proof.
  destruct s as [| c s]; [trivial |].
  cbn [replace_from].
  destruct (prefix "```" (String c s)) eqn:Hfence.
  - intros _. apply prefix_split in Hfence. destruct Hfence as [t ->].
    reflexivity.
  - intros H. apply prefix_split in H. destruct H as [t H].
    injection H as -> Hrest.
    assert (Hhead : prefix "`" (replace_from "```" "" s 0) = true).
    { rewrite Hrest. apply (prefix_app_same "`" t). }
    apply fenceless_head, prefix_split in Hhead. destruct Hhead as [t' ->].
    apply (prefix_app_same "``" t').
Qed.

(** Once the fences are replaced, none is left. *)
Lemma fenceless_has_no_fence s : forall skip,
  contains "```" (replace_from "```" "" s skip) = false.
Proof.
  induction s as [| c s IH]; intros skip; cbn [replace_from]; [reflexivity |].
  destruct skip as [| k]; [| apply IH].
  destruct (prefix "```" (String c s)) eqn:Hfence; [apply IH |].
  cbn [contains]. rewrite IH, orb_false_r.
  destruct (prefix "```" (String c (replace_from "```" "" s 0))) eqn:Hq;
    [| reflexivity].
  apply prefix_split in Hq. destruct Hq as [t Hq].
  injection Hq as -> Hrest.
  assert (Hhead : prefix "``" (replace_from "```" "" s 0) = true).
  { rewrite Hrest. apply (prefix_app_same "``" t). }
  apply fenceless_head2, prefix_split in Hhead. destruct Hhead as [t' ->].
  rewrite <- Hfence. symmetry. apply (prefix_app_same "```" t').
Qed.

Lemma strip_keeps_absence needle s :
  contains needle s = false -> contains needle (strip s) = false.
Proof.
  intros H. destruct (contains needle (strip s)) eqn:Hstrip; [| reflexivity].
  rewrite (contains_occurs needle _ _ (strip_occurs s) Hstrip) in H.
  discriminate.
Qed.

Lemma extract_query_shape response query :
  SqlGuardian.extract_query response = Ret query ->
  exists raw, query = strip (replace "```" "" raw).
Proof.
  unfold SqlGuardian.extract_query, bind_res.
  destruct (json response) as [body |]; [| discriminate].
  destruct (item body "choices") as [choices |]; [| discriminate].
  destruct (item0 choices) as [first |]; [| discriminate].
  destruct (item first "message") as [message |]; [| discriminate].
  destruct (item message "content") as [content |]; [| discriminate].
  destruct (strip_val content) as [text |]; [| discriminate].
  intros [= <-]. now exists (replace "```sql" "" text).
Qed.

Lemma dict_set_keys {V} (k : string) (v : V) (d : SqlGuardian.Dict V) :
  map fst (SqlGuardian.dict_set k v d)
  = if in_dec string_dec k (map fst d)
    then map fst d else (map fst d ++ [k])%list.
Proof.
  induction d as [| [k' v'] d IH]; cbn [SqlGuardian.dict_set map fst];
    [reflexivity |].
  destruct (String.eqb_spec k' k) as [-> | Hne].
  - destruct (in_dec string_dec k (k :: map fst d)) as [_ | Hout];
      [reflexivity |].
    exfalso. apply Hout. now left.
  - cbn [map fst]. rewrite IH.
    destruct (in_dec string_dec k (map fst d)) as [Hin | Hout];
      destruct (in_dec string_dec k (k' :: map fst d)) as [Hin' | Hout'];
      try reflexivity.
    + exfalso. apply Hout'. now right.
    + exfalso. destruct Hin' as [Heq | Hin']; [congruence | contradiction].
Qed.

Lemma dict_set_nodup {V} (k : string) (v : V) (d : SqlGuardian.Dict V) :
  NoDup (map fst d) -> NoDup (map fst (SqlGuardian.dict_set k v d)).
Proof.
  intros Hd. rewrite dict_set_keys.
  destruct (in_dec string_dec k (map fst d)) as [Hin | Hout]; [exact Hd |].
  apply NoDup_app; [exact Hd | repeat constructor; intros [] |].
  intros x Hx [<- | []]. contradiction.
Qed.

Lemma assoc_dict_set {V} (key k : string) (v : V) (d : SqlGuardian.Dict V) :
  assoc key (SqlGuardian.dict_set k v d)
  = if String.eqb k key then Some v else assoc key d.
Proof.
  induction d as [| [k' v'] d IH]; cbn [SqlGuardian.dict_set assoc];
    [reflexivity |].
  destruct (String.eqb_spec k' k) as [-> | Hne]; cbn [assoc].
  - destruct (String.eqb k key); reflexivity.
  - rewrite IH.
    destruct (String.eqb_spec k' key) as [-> | Hne'];
      destruct (String.eqb_spec k key) as [-> | Hne'']; congruence.
Qed.

Lemma assoc_app {V} (key : string) (a b : list (string * V)) :
  assoc key (a ++ b)
  = match assoc key a with Some v => Some v | None => assoc key b end.
Proof.
  induction a as [| [k v] a IH]; cbn [assoc app]; [reflexivity |].
  destruct (String.eqb k key); [reflexivity | exact IH].
Qed.

Lemma dict_of_fold {V} (pairs : list (string * V)) : forall acc,
  NoDup (map fst acc) ->
  let d := fold_left (fun d kv => SqlGuardian.dict_set (fst kv) (snd kv) d)
                     pairs acc in
  NoDup (map fst d)
  /\ (forall key,
        assoc key d
        = match assoc key (rev pairs) with
          | Some v => Some v
          | None => assoc key acc
          end)
  /\ length d <= length acc + length pairs.
Proof.
  induction pairs as [| [k v] pairs IH]; intros acc Hacc; cbn [fold_left].
  - cbn. repeat split; [exact Hacc | lia].
  - destruct (IH (SqlGuardian.dict_set k v acc) (dict_set_nodup k v acc Hacc))
      as (Hnodup & Hassoc & Hlen).
    cbn [fst snd]. repeat split; [exact Hnodup | |].
    + intros key. rewrite Hassoc. cbn [rev]. rewrite assoc_app.
      destruct (assoc key (rev pairs)); [reflexivity |].
      rewrite assoc_dict_set. cbn [assoc].
      destruct (String.eqb k key); reflexivity.
    + assert (Hset : length (SqlGuardian.dict_set k v acc) <= S (length acc)).
      { rewrite <- (length_map fst), dict_set_keys.
        destruct (in_dec string_dec k (map fst acc)).
        - rewrite length_map. lia.
        - rewrite List.length_app, length_map. cbn. lia. }
      cbn [length]. lia.
Qed.

End SqlFacts.

(** X6.  [generate_sql] never raises.  When it gives a query, the model
    answered with status 200, and the query holds no code fence and
    neither starts nor ends with whitespace. *)
Theorem generated_query_is_bare (w : World) (intent : string) (s : St) :
  exists generated,
    fst (SqlGuardian.generate_sql w intent s) = Ret generated
    /\ forall query,
         generated = Some query ->
         contains "```" query = false
         /\ Text.first_is_space query = false
         /\ Text.last_is_space query = false
         /\ allowed (http w SqlGuardian.BIFROST_URL
                          (SqlGuardian.payload intent) 60) = true.
Proof.
  rewrite Steps.generate_sql_run. cbn [fst]. eexists. split; [reflexivity |].
  intros query. unfold generated_query.
  destruct (http w _ _ _) as [response | e]; [| discriminate].
  cbn [allowed]. destruct (status_code response =? 200)%Z; [| discriminate].
  destruct (SqlGuardian.extract_query response) as [found | e] eqn:Hextract;
    [| discriminate].
  intros [= ->].
  destruct (SqlFacts.extract_query_shape _ _ Hextract) as [raw ->].
  repeat split; try apply TextFacts.strip_trimmed.
  apply SqlFacts.strip_keeps_absence, SqlFacts.fenceless_has_no_fence.
Qed.

(** X7.  Once the SQL agent has asked the gateway, its run returns,
    whatever follows: not even a store that cannot be opened, which
    [execute_query] on its own lets through, makes it raise.  And when the
    model gives no query, or an empty one, the run returns with the
    request to the model as its only call: the gateway is not asked. *)
Theorem sql_agent_returns_once_gated (w : World) (task_intent : string) :
  (forall g, In g (calls (SqlGuardian.run_agent w task_intent)) ->
             is_gateway_call g = true ->
             result (SqlGuardian.run_agent w task_intent) = Ret tt)
  /\ (forall generated,
        fst (SqlGuardian.generate_sql w task_intent start) = Ret generated ->
        generated = None \/ generated = Some "" ->
        calls (SqlGuardian.run_agent w task_intent)
        = [sql_bifrost_call w task_intent]
        /\ result (SqlGuardian.run_agent w task_intent) = Ret tt).
Proof.
  split.
  - intros g Hin Hgate.
    now apply (Steps.agent_returns_after_gateway w SqlAgent task_intent g).
  - intros generated. unfold result, calls.
    rewrite Steps.sql_agent_run, Steps.generate_sql_run. cbn [fst snd trace].
    intros [= ->] [-> | ->]; split; reflexivity.
Qed.

Lemma sql_agent_returns_once_gated_witness :
  (exists e,
      result (SqlGuardian.execute_query Cases.store_locked Scenario.orders_query)
      = Raise e)
  /\ result (SqlGuardian.run_agent Cases.store_locked
                                   "Fetch all orders for user_id 1.")
     = Ret tt
  /\ calls (SqlGuardian.run_agent Scenario.model_down "Fetch all orders.")
     = [sql_bifrost_call Scenario.model_down "Fetch all orders."].
Proof.
  split; [eexists; vm_compute; reflexivity |].
  split.
  - destruct (sql_agent_returns_once_gated Cases.store_locked
                "Fetch all orders for user_id 1.") as [Hgated _].
    apply (Hgated (validation_call Cases.store_locked Scenario.orders_query)).
    + vm_compute. right. left. reflexivity.
    + reflexivity.
  - destruct (sql_agent_returns_once_gated Scenario.model_down
                "Fetch all orders.") as [_ Hstop].
    apply (Hstop None); [reflexivity | now left].
Defined.

(** X8.  [execute_query] raises exactly when the store cannot be opened,
    and then what [sqlite3.connect] raised; a statement the store rejects
    comes back as the text ["Database Error: "] followed by the message. *)
Theorem execute_query_raises_iff (w : World) (query : string) (s : St) (e : Exn) :
  (fst (SqlGuardian.execute_query w query s) = Raise e
   <-> database w SqlGuardian.DB_FILE query = ConnectFails e)
  /\ (database w SqlGuardian.DB_FILE query = ExecuteFails e ->
      fst (SqlGuardian.execute_query w query s)
      = Ret ("Database Error: " ++ exn_msg e)).
Proof.
  unfold SqlGuardian.execute_query, bind, sqlite, try_except, lift, raise, ret.
  destruct (database w SqlGuardian.DB_FILE query) as [e1 | e1 | cursor];
    cbn [fst].
  - split; [split; congruence | discriminate].
  - split; [split; discriminate | congruence].
  - destruct (SqlGuardian.format_rows cursor); cbn [fst];
      (split; [split; discriminate | discriminate]).
Qed.

Lemma execute_query_raises_iff_witness :
  fst (SqlGuardian.execute_query Cases.store_locked Scenario.orders_query start)
  = Raise (mkExn DatabaseError "unable to open database file")
  /\ fst (SqlGuardian.execute_query Scenario.orders_world
                                    "SELECT * FROM invoices" start)
     = Ret "Database Error: no such table".
Proof.
  split.
  - apply (execute_query_raises_iff Cases.store_locked Scenario.orders_query
             start (mkExn DatabaseError "unable to open database file")).
    reflexivity.
  - apply (execute_query_raises_iff Scenario.orders_world
             "SELECT * FROM invoices" start
             (mkExn DatabaseError "no such table")).
    reflexivity.
Defined.

(** X9.  A row mapping never has two entries of the same name: when a
    column name comes twice (as in a join of two tables that both have
    [id]), the mapping keeps one entry for it, with the value of the last
    such column, so it can be shorter than the row. *)
Theorem row_mapping_keeps_last_value (columns : list string) (row : list SqlValue) :
  NoDup (map fst (SqlGuardian.row_mapping columns row))
  /\ (forall name,
        Text.assoc name (SqlGuardian.row_mapping columns row)
        = Text.assoc name (rev (combine columns row)))
  /\ length (SqlGuardian.row_mapping columns row) <= length columns.
Proof.
  unfold SqlGuardian.row_mapping, SqlGuardian.dict_of.
  destruct (SqlFacts.dict_of_fold (combine columns row) [] (NoDup_nil _))
    as (Hnodup & Hassoc & Hlen).
  repeat split; [exact Hnodup | |].
  - intros name. rewrite Hassoc.
    destruct (Text.assoc name (rev (combine columns row))); reflexivity.
  - cbn [length] in Hlen. rewrite length_combine in Hlen. lia.
Qed.

(** The two [id] columns of a join: one entry is left, with the second
    value. *)
Example row_mapping_of_a_join :
  SqlGuardian.row_mapping ["id"; "username"; "id"; "product"]
                          [SqlInt 1; SqlText "Admin"; SqlInt 7; SqlText "Mouse"]
  = [ ("id", SqlInt 7); ("username", SqlText "Admin");
      ("product", SqlText "Mouse") ].
Proof. reflexivity. Qed.

(* ================================================================== *)
(** ** Further properties: the auditor and the aggregator *)
(* ================================================================== *)

Module ReportFacts.
Import Text TextFacts.

Lemma contains_prefix needle hay :
  prefix needle hay = true -> contains needle hay = true.
Proof. intros H. destruct hay; cbn [contains]; now rewrite H. Qed.












End ReportFacts.

Module CleanerFacts.

Lemma summarize_trace w s :
  trace (snd (DataCleaner.summarize w s))
  = (trace s
     ++ [EvPost DataCleaner.BIFROST_URL
           (DataCleaner.payload (mock_transactions w)) 60
           (http w DataCleaner.BIFROST_URL
                 (DataCleaner.payload (mock_transactions w)) 60)])%list.
Proof.
  unfold DataCleaner.summarize, bind at 1, print at 1, ret at 1.
  unfold bind at 1. rewrite Steps.analyze_with_llm_run.
  destruct (contains "Error" _); reflexivity.
Qed.

Lemma forward_run w summary s :
  exists entries,
    DataCleaner.forward w summary s
    = (Ret (PDict entries),
       record (EvPost DataCleaner.GATEWAY_ROUTER_URL
                 (DataCleaner.envelope summary) 300
                 (http w DataCleaner.GATEWAY_ROUTER_URL
                       (DataCleaner.envelope summary) 300)) s)
    /\ (lookup "status" entries = Some (PStr "success")
        \/ lookup "status" entries = Some (PStr "blocked")
        \/ lookup "status" entries = Some (PStr "error"))
    /\ (lookup "status" entries = Some (PStr "success") ->
        lookup "raw_summary" entries = Some (PStr summary)).
Proof.
  unfold DataCleaner.forward, try_except, bind, post, lift, print, ret.
  destruct (http w _ _ _) as [response | e].
  - destruct (status_code response =? 200)%Z.
    + destruct (json response) as [resp_data | e];
        [| eexists; split; [reflexivity | cbn; split; [auto | discriminate]]].
      destruct (item resp_data "message") as [message | e];
        [| eexists; split; [reflexivity | cbn; split; [auto | discriminate]]].
      destruct (get resp_data "clean_payload" (PStr "")) as [clean | e];
        [| eexists; split; [reflexivity | cbn; split; [auto | discriminate]]].
      destruct (get resp_data "target_response" (PStr "")) as [target | e];
        eexists; (split; [reflexivity | cbn; split; [auto | try discriminate]]).
      reflexivity.
    + eexists. split; [reflexivity | cbn; split; [auto | discriminate]].
  - eexists. split; [reflexivity | cbn; split; [auto | discriminate]].
Qed.

End CleanerFacts.



(** X12.  When the model answers the data cleaner with a status other than
    200 and a body without the word "Error", no fallback is taken: the
    summary is the text ["Bifrost error: "] followed by the body, and that
    text is what the router is sent as payload. *)
Theorem status_error_is_forwarded
        (w : World) (task : string) (response : Response) :
  http w DataCleaner.BIFROST_URL
       (DataCleaner.payload (mock_transactions w)) 60 = Ret response ->
  status_code response <> 200%Z ->
  contains "Error" (text response) = false ->
  fst (DataCleaner.summarize w start) = Ret ("Bifrost error: " ++ text response)
  /\ calls (DataCleaner.run_agent w task)
     = [ EvPost DataCleaner.BIFROST_URL
           (DataCleaner.payload (mock_transactions w)) 60 (Ret response);
         EvPost DataCleaner.GATEWAY_ROUTER_URL
           (DataCleaner.envelope ("Bifrost error: " ++ text response)) 300
           (http w DataCleaner.GATEWAY_ROUTER_URL
                 (DataCleaner.envelope ("Bifrost error: " ++ text response))
                 300) ].
Proof.
  intros Hpost Hstatus Hclean.
  assert (Hsummary : fst (DataCleaner.summarize w start)
                     = Ret ("Bifrost error: " ++ text response)).
  { rewrite Steps.summarize_run, Hpost. cbn [analysis_text].
    apply Z.eqb_neq in Hstatus. rewrite Hstatus. cbv zeta.
    cbn [append contains prefix]. cbn. now rewrite Hclean. }
  split; [exact Hsummary |].
  unfold calls, DataCleaner.run_agent, bind, print, ret.
  pose proof (CleanerFacts.summarize_trace w start) as Htrace.
  destruct (DataCleaner.summarize w start) as [[summary | e] s1];
    cbn [fst snd] in *; [| discriminate].
  destruct (CleanerFacts.forward_run w summary s1) as (entries & -> & _).
  injection Hsummary as ->.
  cbn [snd record trace]. rewrite Htrace, Hpost. reflexivity.
Qed.

Lemma status_error_is_forwarded_witness :
  fst (DataCleaner.summarize Cases.model_overloaded start)
  = Ret "Bifrost error: upstream busy"
  /\ calls (DataCleaner.run_agent Cases.model_overloaded "Analyze")
     = [ EvPost DataCleaner.BIFROST_URL
           (DataCleaner.payload (mock_transactions Cases.model_overloaded)) 60
           (http Cases.model_overloaded DataCleaner.BIFROST_URL
                 (DataCleaner.payload (mock_transactions Cases.model_overloaded))
                 60);
         EvPost DataCleaner.GATEWAY_ROUTER_URL
           (DataCleaner.envelope "Bifrost error: upstream busy") 300
           (Scenario.replies 200 "" Scenario.routed) ].
Proof.
  apply (status_error_is_forwarded Cases.model_overloaded "Analyze"
           (mkResponse 503 "upstream busy"
              (Raise (mkExn JSONDecodeError
                        "Expecting value: line 1 column 1 (char 0)"))));
    [reflexivity | discriminate | reflexivity].
Defined.

(** X13.  Whatever the data cleaner sends to the router is the envelope
    of the summary it produced, untouched, and a run that has got as far
    as the router returns: its result is a mapping whose status is
    "success", "blocked" or "error", and on success its [raw_summary] is
    the payload that was sent. *)
Theorem cleaner_sends_its_summary
        (w : World) (task : string)
        (url : string) (body : PyVal) (timeout : Z) (outcome : Res Response) :
  In (EvPost url body timeout outcome) (calls (DataCleaner.run_agent w task)) ->
  url = DataCleaner.GATEWAY_ROUTER_URL ->
  exists summary entries,
    fst (DataCleaner.summarize w start) = Ret summary
    /\ body = DataCleaner.envelope summary
    /\ timeout = 300%Z
    /\ outcome = http w DataCleaner.GATEWAY_ROUTER_URL
                      (DataCleaner.envelope summary) 300
    /\ result (DataCleaner.run_agent w task) = Ret (PDict entries)
    /\ (lookup "status" entries = Some (PStr "success")
        \/ lookup "status" entries = Some (PStr "blocked")
        \/ lookup "status" entries = Some (PStr "error"))
    /\ (lookup "status" entries = Some (PStr "success") ->
        lookup "raw_summary" entries = Some (PStr summary)).
Proof.
  unfold calls, result, DataCleaner.run_agent, bind, print, ret.
  pose proof (Steps.summarize_run w start) as Hsummary.
  pose proof (CleanerFacts.summarize_trace w start) as Htrace.
  destruct (DataCleaner.summarize w start) as [[summary | e] s1];
    cbn [fst snd] in *; [| discriminate].
  destruct (CleanerFacts.forward_run w summary s1)
    as (entries & -> & Hstatus & Hraw).
  cbn [fst snd record trace]. rewrite Htrace. cbn [app].
  intros [Hmodel | [Hrouter | []]] Hurl.
  - injection Hmodel as <- _ _ _. discriminate.
  - injection Hrouter as _ <- <- <-.
    exists summary, entries. repeat split; assumption.
Qed.

Lemma cleaner_sends_its_summary_witness :
  exists summary entries,
    fst (DataCleaner.summarize Scenario.router_ok start) = Ret summary
    /\ DataCleaner.envelope "Three large transfers flagged."
       = DataCleaner.envelope summary
    /\ 300%Z = 300%Z
    /\ Scenario.replies 200 "" Scenario.routed
       = http Scenario.router_ok DataCleaner.GATEWAY_ROUTER_URL
              (DataCleaner.envelope summary) 300
    /\ result (DataCleaner.run_agent Scenario.router_ok "Analyze")
       = Ret (PDict entries)
    /\ (lookup "status" entries = Some (PStr "success")
        \/ lookup "status" entries = Some (PStr "blocked")
        \/ lookup "status" entries = Some (PStr "error"))
    /\ (lookup "status" entries = Some (PStr "success") ->
        lookup "raw_summary" entries = Some (PStr summary)).
Proof.
  apply (cleaner_sends_its_summary Scenario.router_ok "Analyze"
           DataCleaner.GATEWAY_ROUTER_URL
           (DataCleaner.envelope "Three large transfers flagged.")
           300 (Scenario.replies 200 "" Scenario.routed)).
  - vm_compute. right. left. reflexivity.
  - reflexivity.
Defined.

(** X14.  The relay reports "blocked" exactly when the router answered
    with a status other than 200, whichever it is (a 500 as much as a
    403), and the reason is then the body of the response as it came. *)
Theorem relay_blocked_iff (w : World) (summary : string) (s : St) (reason : string) :
  fst (DataCleaner.forward w summary s)
  = Ret (PDict [ ("status", PStr "blocked"); ("reason", PStr reason) ])
  <-> exists response,
        http w DataCleaner.GATEWAY_ROUTER_URL (DataCleaner.envelope summary) 300
        = Ret response
        /\ status_code response <> 200%Z
        /\ text response = reason.
Proof.
  unfold DataCleaner.forward, try_except, bind, post, lift, print, ret.
  destruct (http w _ _ _) as [response | e].
  - destruct (status_code response =? 200)%Z eqn:Hstatus.
    + apply Z.eqb_eq in Hstatus. split.
      * destruct (json response) as [resp_data | e]; [| discriminate].
        destruct (item resp_data "message"); [| discriminate].
        destruct (get resp_data "clean_payload" (PStr "")); [| discriminate].
        destruct (get resp_data "target_response" (PStr "")); discriminate.
      * intros (r & [= <-] & Hne & _). contradiction.
    + apply Z.eqb_neq in Hstatus. cbn [fst]. split.
      * intros [= <-]. now exists response.
      * intros (r & [= <-] & _ & <-). reflexivity.
  - cbn [fst]. split; [discriminate | intros (r & Hr & _); discriminate].
Qed.

(** A fault of the router is reported as a block. *)
Example router_fault_reads_as_block :
  result (DataCleaner.forward Cases.router_faults "Three large transfers flagged.")
  = Ret (PDict [ ("status", PStr "blocked");
                 ("reason", PStr "Internal Server Error") ]).
Proof. reflexivity. Qed.

(* ================================================================== *)
(** ** Further properties: the scraper *)
(* ================================================================== *)

Module WebFacts.
Import Text TextFacts.

Lemma validate_with_opensec_run w text_content s :
  WebSpider.validate_with_opensec w text_content s
  = (Ret (allowed (http w WebSpider.GATEWAY_URL
                        (PDict [("prompt",
                                 PStr (WebSpider.payload_prompt text_content))])
                        30)),
     record (EvPost WebSpider.GATEWAY_URL
               (PDict [("prompt", PStr (WebSpider.payload_prompt text_content))])
               30
               (http w WebSpider.GATEWAY_URL
                     (PDict [("prompt",
                              PStr (WebSpider.payload_prompt text_content))])
                     30)) s).
Proof.
  unfold WebSpider.validate_with_opensec, try_except, bind, post, lift,
    print, ret.
  destruct (http w _ _ _) as [response | e]; cbn [allowed]; [| reflexivity].
  destruct (status_code response =? 200)%Z; [reflexivity |].
  destruct (json response) as [body | e]; [| reflexivity].
  destruct (get body "detail" _); reflexivity.
Qed.

Lemma summarize_with_bifrost_run w text_content user_prompt s :
  WebSpider.summarize_with_bifrost w text_content user_prompt s
  = (Ret tt,
     record (EvPost WebSpider.BIFROST_URL
               (WebSpider.payload text_content user_prompt) 60
               (http w WebSpider.BIFROST_URL
                     (WebSpider.payload text_content user_prompt) 60)) s).
Proof.
  unfold WebSpider.summarize_with_bifrost, try_except, bind, post, lift,
    print, ret.
  destruct (http w _ _ _) as [response | e]; [| reflexivity].
  destruct (status_code response =? 200)%Z; [| reflexivity].
  destruct (WebSpider.extract_content response) as [action | e];
    [| reflexivity].
  destruct (is_empty action); reflexivity.
Qed.

(** The calls of a run of the scraper, and that it returns. *)
Lemma scraper_run w page task url :
  WebSpider.run_agent w page task url start
  = (Ret tt,
     mkSt
       match page url with
       | Raise _ => []
       | Ret text =>
           let raw_text := WebSpider.clean text in
           if is_empty raw_text then []
           else
             let prompt := PDict [("prompt",
                                   PStr (WebSpider.payload_prompt raw_text))] in
             let verdict := http w WebSpider.GATEWAY_URL prompt 30 in
             if allowed verdict
             then [ EvPost WebSpider.GATEWAY_URL prompt 30 verdict;
                    EvPost WebSpider.BIFROST_URL
                      (WebSpider.payload raw_text task) 60
                      (http w WebSpider.BIFROST_URL
                            (WebSpider.payload raw_text task) 60) ]
             else [ EvPost WebSpider.GATEWAY_URL prompt 30 verdict ]
       end 0 0).
Proof.
  unfold WebSpider.run_agent, WebSpider.fetch_website_content,
    try_except, lift, print, ret.
  unfold bind at 1, bind at 1, bind at 1, bind at 1, bind at 1.
  destruct (page url) as [text | e]; [| reflexivity].
  cbv zeta. destruct (is_empty (WebSpider.clean text)); [reflexivity |].
  unfold bind. rewrite validate_with_opensec_run.
  destruct (allowed _); cbn [negb]; [| reflexivity].
  rewrite summarize_with_bifrost_run. reflexivity.
Qed.

Lemma chunk_is_trimmed text chunk :
  In chunk (WebSpider.chunks text) ->
  chunk <> "" /\ first_is_space chunk = false /\ last_is_space chunk = false.
Proof.
  unfold WebSpider.chunks, WebSpider.phrases. intros Hin.
  apply filter_In in Hin. destruct Hin as [Hin Hfull].
  split; [destruct chunk; [discriminate | discriminate] |].
  apply in_flat_map in Hin. destruct Hin as (line & _ & Hin).
  apply in_map_iff in Hin. destruct Hin as (piece & <- & _).
  apply strip_trimmed.
Qed.

Lemma last_is_space_app a b :
  b <> "" -> last_is_space (a ++ b) = last_is_space b.
Proof.
  intros Hb. induction a as [| c a IH]; [reflexivity |].
  cbn [append last_is_space]. rewrite IH.
  destruct (a ++ b) eqn:E; [| reflexivity].
  destruct a; [cbn in E; congruence | discriminate].
Qed.

Lemma concat_trimmed (l : list string) :
  (forall x, In x l ->
     x <> "" /\ first_is_space x = false /\ last_is_space x = false) ->
  first_is_space (String.concat nl l) = false
  /\ last_is_space (String.concat nl l) = false
  /\ (l <> [] -> String.concat nl l <> "").
Proof.
  induction l as [| x l IH]; intros Hall; [cbn; repeat split; congruence |].
  destruct (Hall x (or_introl eq_refl)) as (Hx & Hfirst & Hlast).
  destruct l as [| y l];
    [cbn [String.concat]; split; [exact Hfirst | split; [exact Hlast |]];
     intros _; exact Hx |].
  destruct IH as (_ & IHlast & IHfull);
    [intros z Hz; apply Hall; now right |].
  change (String.concat nl (x :: y :: l))
    with (x ++ nl ++ String.concat nl (y :: l)).
  repeat split.
  - destruct x; [congruence | exact Hfirst].
  - rewrite last_is_space_app; [| discriminate].
    change (nl ++ String.concat nl (y :: l))
      with (String (chr 10) (String.concat nl (y :: l))).
    specialize (IHfull ltac:(discriminate)).
    cbn [last_is_space]. destruct (String.concat nl (y :: l)); [congruence |].
    exact IHlast.
  - intros _. destruct x; [congruence | discriminate].
Qed.

Lemma strip_blank s : Spec.all_space s = true -> strip s = "".
Proof.
  unfold strip. induction s as [| c s IH]; [reflexivity |].
  cbn [Spec.all_space lstrip]. intros H. apply andb_prop in H.
  destruct H as [-> Hs]. now apply IH.
Qed.

Lemma all_space_app a b :
  Spec.all_space (a ++ b) = (Spec.all_space a && Spec.all_space b)%bool.
Proof.
  induction a as [| c a IH]; cbn; [reflexivity |].
  now rewrite IH, andb_assoc.
Qed.

Lemma splitlines_blank s : forall cur open after_cr line,
  Spec.all_space s = true -> Spec.all_space cur = true ->
  In line (splitlines_from s cur open after_cr) ->
  Spec.all_space line = true.
Proof.
  induction s as [| c s IH]; intros cur open after_cr line Hs Hcur;
    cbn [splitlines_from].
  - destruct open; [intros [<- | []]; exact Hcur | intros []].
  - cbn [Spec.all_space] in Hs. apply andb_prop in Hs. destruct Hs as [Hc Hs].
    destruct (after_cr && N.eqb (ord c) 10 && negb open)%bool;
      [now apply IH |].
    destruct (is_linebreak c).
    + intros [<- | Hin]; [exact Hcur |].
      now apply (IH "" false (N.eqb (ord c) 13) line).
    + apply IH; [exact Hs |].
      rewrite all_space_app, Hcur. cbn. now rewrite Hc.
Qed.

Lemma chunks_of_blank text :
  Spec.all_space text = true -> WebSpider.chunks text = [].
Proof.
  intros Hblank. unfold WebSpider.chunks, WebSpider.phrases.
  assert (Hlines : forall line, In line (map strip (splitlines text)) ->
                                line = "").
  { intros line Hin. apply in_map_iff in Hin. destruct Hin as (l & <- & Hin).
    apply strip_blank.
    now apply (splitlines_blank text "" false false l Hblank eq_refl). }
  induction (map strip (splitlines text)) as [| line lines IH];
    [reflexivity |].
  cbn [flat_map]. rewrite filter_app, IH; [| intros l Hl; apply Hlines; now right].
  rewrite (Hlines line (or_introl eq_refl)). reflexivity.
Qed.

End WebFacts.

(** X15.  The scraper hands a page to the model only behind the gateway:
    when the model is called, the call before it, the first of the run, is
    the gateway's Allow (status 200) for the prompt made of the cleaned
    text of the page, and what the model is sent is built from that same
    text and the task. *)
Theorem scraper_summarizes_after_allow
        (w : World) (page : string -> Res string) (task url : string)
        (body : PyVal) (timeout : Z) (outcome : Res Response) :
  In (EvPost WebSpider.BIFROST_URL body timeout outcome)
     (calls (WebSpider.run_agent w page task url)) ->
  exists text verdict,
    page url = Ret text
    /\ http w WebSpider.GATEWAY_URL
            (PDict [("prompt",
                     PStr (WebSpider.payload_prompt (WebSpider.clean text)))]) 30
       = Ret verdict
    /\ status_code verdict = 200%Z
    /\ body = WebSpider.payload (WebSpider.clean text) task
    /\ calls (WebSpider.run_agent w page task url)
       = [ EvPost WebSpider.GATEWAY_URL
             (PDict [("prompt",
                      PStr (WebSpider.payload_prompt (WebSpider.clean text)))])
             30 (Ret verdict);
           EvPost WebSpider.BIFROST_URL body timeout outcome ].
Proof.
  unfold calls. rewrite WebFacts.scraper_run. cbn [snd trace].
  destruct (page url) as [text | e]; [| intros []].
  cbv zeta. destruct (is_empty (WebSpider.clean text)); [intros [] |].
  destruct (http w WebSpider.GATEWAY_URL _ 30) as [verdict | e] eqn:Hgate;
    cbn [allowed].
  - destruct (status_code verdict =? 200)%Z eqn:Hstatus.
    + intros [Hin | [Hin | []]]; [discriminate |].
      injection Hin as <- <- <-.
      exists text, verdict. apply Z.eqb_eq in Hstatus. now repeat split.
    + intros [Hin | []]. discriminate.
  - intros [Hin | []]. discriminate.
Qed.

Lemma scraper_summarizes_after_allow_witness :
  exists text verdict,
    Cases.front_page "https://example.org" = Ret text
    /\ http Scenario.model_down WebSpider.GATEWAY_URL
            (PDict [("prompt",
                     PStr (WebSpider.payload_prompt (WebSpider.clean text)))]) 30
       = Ret verdict
    /\ status_code verdict = 200%Z
    /\ WebSpider.payload
         (join_lines ["Top story"; "today"; "Weather:"; "rain"]) "Summarize"
       = WebSpider.payload (WebSpider.clean text) "Summarize"
    /\ calls (WebSpider.run_agent Scenario.model_down Cases.front_page
                                  "Summarize" "https://example.org")
       = [ EvPost WebSpider.GATEWAY_URL
             (PDict [("prompt",
                      PStr (WebSpider.payload_prompt (WebSpider.clean text)))])
             30 (Ret verdict);
           EvPost WebSpider.BIFROST_URL
             (WebSpider.payload
                (join_lines ["Top story"; "today"; "Weather:"; "rain"])
                "Summarize")
             60 (Raise Scenario.refused) ].
Proof.
  apply (scraper_summarizes_after_allow Scenario.model_down Cases.front_page
           "Summarize" "https://example.org").
  vm_compute. right. left. reflexivity.
Defined.

(** X16.  A run of the scraper never raises, and it makes no call at all
    when the page cannot be had or its text is nothing but whitespace. *)
Theorem scraper_stops_without_text
        (w : World) (page : string -> Res string) (task url : string) :
  result (WebSpider.run_agent w page task url) = Ret tt
  /\ ((exists e, page url = Raise e)
      \/ (exists text, page url = Ret text /\ Spec.all_space text = true) ->
      calls (WebSpider.run_agent w page task url) = []).
Proof.
  unfold result, calls. rewrite WebFacts.scraper_run. split; [reflexivity |].
  cbn [snd trace]. intros [[e ->] | (text & -> & Hblank)]; [reflexivity |].
  cbv zeta. unfold WebSpider.clean.
  now rewrite (WebFacts.chunks_of_blank text Hblank).
Qed.

Lemma scraper_stops_without_text_witness :
  calls (WebSpider.run_agent Scenario.model_down Cases.front_page
                             "Summarize" "https://nowhere.invalid") = []
  /\ calls (WebSpider.run_agent Scenario.model_down
              (fun _ => Ret ("   " ++ nl ++ " "))
              "Summarize" "https://example.org") = [].
Proof.
  split.
  - apply (scraper_stops_without_text Scenario.model_down Cases.front_page
             "Summarize" "https://nowhere.invalid").
    left. eexists. reflexivity.
  - apply (scraper_stops_without_text Scenario.model_down
             (fun _ => Ret ("   " ++ nl ++ " "))
             "Summarize" "https://example.org").
    right. eexists. split; reflexivity.
Defined.

(** X17.  The text the scraper keeps of a page has no padding: each of its
    pieces is non-empty and neither starts nor ends with whitespace, and
    so the text as a whole neither starts nor ends with whitespace and is
    empty only when there is no piece. *)
Theorem cleaned_text_is_trimmed (text : string) :
  (forall chunk, In chunk (WebSpider.chunks text) ->
     chunk <> ""
     /\ Text.first_is_space chunk = false
     /\ Text.last_is_space chunk = false)
  /\ Text.first_is_space (WebSpider.clean text) = false
  /\ Text.last_is_space (WebSpider.clean text) = false
  /\ (WebSpider.clean text = "" <-> WebSpider.chunks text = []).
Proof.
  split; [apply WebFacts.chunk_is_trimmed |].
  destruct (WebFacts.concat_trimmed (WebSpider.chunks text)
              (WebFacts.chunk_is_trimmed text)) as (Hfirst & Hlast & Hfull).
  repeat split; try assumption.
  - intros Hempty. unfold WebSpider.clean in Hempty.
    destruct (WebSpider.chunks text) eqn:E; [reflexivity |].
    exfalso. apply Hfull; [discriminate | exact Hempty].
  - unfold WebSpider.clean. now intros ->.
Qed.

(** X18.  Whatever the generation call raises, in the transport or while
    the body of a 200 response is decoded and searched, ends in the canned
    output: the text the generator then returns begins with "Error", which
    is what the caller looks for.  This holds for the data cleaner and for
    the validator alike. *)
Theorem exception_gives_canned_output (w : World) (s : St) (e : Exn) :
  (http w DataCleaner.BIFROST_URL
        (DataCleaner.payload (mock_transactions w)) 60 = Raise e
   \/ (exists response,
         http w DataCleaner.BIFROST_URL
              (DataCleaner.payload (mock_transactions w)) 60 = Ret response
         /\ status_code response = 200%Z
         /\ DataCleaner.extract_content response = Raise e) ->
   fst (DataCleaner.summarize w s)
   = Ret (DataCleaner.canned_summary (mock_transactions w)
            (3 + Z.of_N (entropy w (draws s)) mod 6)))
  /\ (forall clean_summary format_type,
        http w Validator.BIFROST_URL (Validator.payload clean_summary) 180
        = Raise e
        \/ (exists response,
              http w Validator.BIFROST_URL (Validator.payload clean_summary) 180
              = Ret response
              /\ status_code response = 200%Z
              /\ Validator.extract_content response = Raise e) ->
        fst (Validator.compile_report w clean_summary format_type s)
        = Ret (Validator.canned_report (clock w (clock_reads s)) format_type
                                       (clock w (S (clock_reads s))))).
Proof.
  split.
  - intros Hraised. rewrite Steps.summarize_run. cbv zeta.
    assert (Htext : analysis_text
                      (http w DataCleaner.BIFROST_URL
                            (DataCleaner.payload (mock_transactions w)) 60)
                    = "Error calling Bifrost: " ++ exn_msg e).
    { destruct Hraised as [-> | (response & -> & Hstatus & Hextract)];
        [reflexivity |].
      cbn [analysis_text]. now rewrite Hstatus, Hextract. }
    rewrite Htext. reflexivity.
  - intros clean_summary format_type Hraised.
    rewrite Steps.compile_report_run. cbv zeta.
    assert (Htext : report_text
                      (http w Validator.BIFROST_URL
                            (Validator.payload clean_summary) 180)
                    = "Error generating report: " ++ exn_msg e).
    { destruct Hraised as [-> | (response & -> & Hstatus & Hextract)];
        [reflexivity |].
      cbn [report_text]. now rewrite Hstatus, Hextract. }
    rewrite Htext. reflexivity.
Qed.

Lemma exception_gives_canned_output_witness :
  fst (DataCleaner.summarize Scenario.model_down start)
  = Ret (DataCleaner.canned_summary (mock_transactions Scenario.model_down) 3)
  /\ fst (Validator.compile_report Scenario.model_down
            Validator.SAMPLE_CLEAN_SUMMARY "detailed" start)
     = Ret (Validator.canned_report Scenario.morning "detailed" Scenario.morning).
Proof.
  destruct (exception_gives_canned_output Scenario.model_down start
              Scenario.refused) as [Hcleaner Hvalidator].
  split.
  - apply Hcleaner. now left.
  - apply (Hvalidator Validator.SAMPLE_CLEAN_SUMMARY "detailed"). now left.
Defined.

Module QueryFacts.

Lemma generated_query_bare outcome query :
  generated_query outcome = Some query ->
  contains "```" query = false
  /\ Text.first_is_space query = false
  /\ Text.last_is_space query = false.
Proof.
  unfold generated_query.
  destruct outcome as [response | e]; [| discriminate].
  destruct (status_code response =? 200)%Z; [| discriminate].
  destruct (SqlGuardian.extract_query response) as [found | e] eqn:Hextract;
    [| discriminate].
  intros [= ->].
  destruct (SqlFacts.extract_query_shape _ _ Hextract) as [raw ->].
  split; [| apply TextFacts.strip_trimmed].
  apply SqlFacts.strip_keeps_absence, SqlFacts.fenceless_has_no_fence.
Qed.

End QueryFacts.

(** X19.  The statement the SQL agent sends to the store is never empty,
    holds no code fence, neither starts nor ends with whitespace, and goes
    to the one database file of the agent. *)
Theorem executed_query_is_bare
        (w : World) (task_intent db query : string) (outcome : DbOutcome) :
  In (EvSqlite db query outcome) (calls (SqlGuardian.run_agent w task_intent)) ->
  db = SqlGuardian.DB_FILE
  /\ query <> ""
  /\ contains "```" query = false
  /\ Text.first_is_space query = false
  /\ Text.last_is_space query = false.
Proof.
  unfold calls. rewrite Steps.sql_agent_run. cbn [snd trace].
  destruct (generated_query _) as [sql_query |] eqn:Hgenerated;
    [| intros [Hin | []]; discriminate].
  destruct (is_empty sql_query) eqn:Hempty; [intros [Hin | []]; discriminate |].
  cbv zeta. destruct (gateway_allows _).
  - intros [Hin | [Hin | [Hin | []]]]; try discriminate.
    injection Hin as <- <- _.
    split; [reflexivity |].
    split; [intros ->; discriminate |].
    exact (QueryFacts.generated_query_bare _ _ Hgenerated).
  - intros [Hin | [Hin | []]]; discriminate.
Qed.

Lemma executed_query_is_bare_witness :
  SqlGuardian.DB_FILE = SqlGuardian.DB_FILE
  /\ Scenario.orders_query <> ""
  /\ contains "```" Scenario.orders_query = false
  /\ Text.first_is_space Scenario.orders_query = false
  /\ Text.last_is_space Scenario.orders_query = false.
Proof.
  apply (executed_query_is_bare Scenario.orders_world
           "Fetch all orders for user_id 1." SqlGuardian.DB_FILE
           Scenario.orders_query (Fetched Scenario.orders)).
  vm_compute. right. right. left. reflexivity.
Defined.
